(** * CTB execution engine: simulated exchange, signal translation, strategies

    A shallow embedding of the execution core of the trading bot:
    - [agent/exchange_adapters/mock_exchange_adapter.py]  (order settlement),
    - [agent/trading_agent.py]                            (orchestration),
    - [agent/strategies/rule_based/moving_average_crossover.py] and
      [agent/strategies/ai_based/sentiment_llm_strategy.py] (position flags).

    Conventions.
    - Python [float] amounts are idealised as exact rationals [Q]; results
      of arithmetic are compared with [==] ([Qeq]), untouched values with [=].
    - Every source of nondeterminism is an explicit argument: the two calls
      to [random.random()] and the [uuid] of one [create_order] call are
      gathered in a [Draw].
    - A call either returns or raises: [Outcome A].  Mutation of [self] is
      explicit state passing: methods return the new object next to the
      outcome.
    - Timestamps and log lines carry no behaviour and are left out. *)

From stdpp Require Import base option list gmap strings.
From Stdlib Require Import Ascii String QArith Qminmax Qabs Lqa Lia.

Local Open Scope string_scope.
Local Open Scope list_scope.
Local Open Scope Q_scope.

(** ** Python values and control flow *)

(** Exceptions that cross a method boundary.  The class hierarchy of
    [base_exchange_adapter.py] is
    [InsufficientFundsError <: OrderPlacementError <: ExchangeAdapterError
     <: Exception]; [ValueError], [TypeError] and [AttributeError] are
    built in. *)
Inductive Exn : Type :=
  | InsufficientFundsError
  | OrderPlacementError
  | ExchangeAdapterError
  | ValueError
  | TypeError
  | AttributeError
  | OtherException.

Inductive Outcome (A : Type) : Type :=
  | Returned (a : A)
  | Raised (e : Exn).
Arguments Returned {A} a.
Arguments Raised {A} e.

(** [a < b] on floats, as a boolean. *)
Definition Qltb (a b : Q) : bool := negb (Qle_bool b a).

(** Truth value of an optional float: [None] and [0.0] are falsy. *)
Definition truthy_float (x : option Q) : bool :=
  match x with
  | None => false
  | Some q => negb (Qeq_bool q 0)
  end.

(** Truth value of an optional string: [None] and the empty string are falsy. *)
Definition truthy_str (x : option string) : bool :=
  match x with
  | None => false
  | Some s => negb (String.eqb s "")
  end.

(** [s.split(sep)] for a one-character separator. *)
Fixpoint split (sep : ascii) (s : string) : list string :=
  match s with
  | EmptyString => [EmptyString]
  | String c rest =>
      if Ascii.eqb c sep then EmptyString :: split sep rest
      else match split sep rest with
           | [] => [String c EmptyString]
           | w :: ws => String c w :: ws
           end
  end.

(** [a, b = xs]: unpacking into two names needs exactly two items,
    otherwise Python raises [ValueError]. *)
Definition unpack2 (xs : list string) : option (string * string) :=
  match xs with
  | [a; b] => Some (a, b)
  | _ => None
  end.

Definition slash : ascii := "/"%char.

(** ** Trading models *)

(** Modelled from the spec: [agent/trading_models.py] is not among the
    sources; [OrderAction] has the members the callers compare against
    (BUY, SELL, HOLD). *)
Inductive OrderAction : Type := BUY | SELL | HOLD.

(** Modelled from the spec: [OrderType] of [agent/trading_models.py],
    order_type in {MARKET, LIMIT}. *)
Inductive OrderType : Type := MARKET | LIMIT.

(** Modelled from the spec: the status of an executed order,
    status in {FILLED, OPEN, CANCELED, REJECTED}. *)
Inductive OrderStatus : Type := FILLED | OPEN | CANCELED | REJECTED.

#[global] Instance OrderAction_eq_dec : EqDecision OrderAction.
Proof. solve_decision. Defined.
#[global] Instance OrderType_eq_dec : EqDecision OrderType.
Proof. solve_decision. Defined.
#[global] Instance OrderStatus_eq_dec : EqDecision OrderStatus.
Proof. solve_decision. Defined.

(** The [metadata] dictionaries the adapter writes. *)
Inductive Metadata : Type :=
  | NoMetadata
  | Reason (msg : string)
  | SimulatedMarketPriceAtTrade (sim_price : Q).

(** [OrderRequest] of [base_exchange_adapter.py]. *)
Record OrderRequest : Type := mkOrderRequest {
  request_id : string;
  symbol : string;
  action : OrderAction;
  order_type : OrderType;
  quantity : Q;
  price : option Q;
  client_order_id : option string;
  strategy_name : option string
}.

(** Modelled from the spec: [ExecutedOrder] of [agent/trading_models.py],
    with the fields the adapter fills in. *)
Record ExecutedOrder : Type := mkExecutedOrder {
  order_id : string;
  eo_client_order_id : option string;
  eo_symbol : string;
  eo_action : OrderAction;
  eo_order_type : OrderType;
  eo_price : Q;
  eo_quantity : Q;
  fee : option Q;
  fee_currency : option string;
  status : OrderStatus;
  metadata : Metadata
}.

(** Modelled from the spec: [AgentPortfolio] of [agent/trading_models.py],
    cash_balance: map<currency, amount>, asset_holdings: map<asset, amount>. *)
Record AgentPortfolio : Type := mkAgentPortfolio {
  cash_balance : gmap string Q;
  asset_holdings : gmap string Q
}.

(** [d.get(k, 0)] *)
Definition get0 (d : gmap string Q) (k : string) : Q := default 0 (d !! k).

(** Modelled from the spec: [AgentPortfolio.update_cash(currency, delta)];
    deltas may be negative and the portfolio itself rejects nothing. *)
Definition update_cash (p : AgentPortfolio) (currency : string) (delta : Q)
  : AgentPortfolio :=
  {| cash_balance := <[currency := get0 (cash_balance p) currency + delta]> (cash_balance p);
     asset_holdings := asset_holdings p |}.

(** Modelled from the spec: [AgentPortfolio.update_asset(asset, delta)]. *)
Definition update_asset (p : AgentPortfolio) (asset : string) (delta : Q)
  : AgentPortfolio :=
  {| cash_balance := cash_balance p;
     asset_holdings := <[asset := get0 (asset_holdings p) asset + delta]> (asset_holdings p) |}.

(** ** MockExchangeAdapter *)

Record MockExchangeAdapter : Type := mkMockExchangeAdapter {
  portfolio : AgentPortfolio;
  open_orders : gmap string ExecutedOrder;
  trade_history : list ExecutedOrder;
  current_sim_prices : gmap string Q;
  slippage_factor : Q;
  commission_rate : Q;
  fill_probability : Q
}.

(** The random inputs of one [create_order] call: the non-fill roll, the
    noise roll of [_get_sim_price], and the ten hex digits of the uuid. *)
Record Draw : Type := mkDraw {
  r_fill : Q;
  r_noise : Q;
  uid : string
}.

Definition set_portfolio (self : MockExchangeAdapter) (p : AgentPortfolio)
  : MockExchangeAdapter :=
  {| portfolio := p;
     open_orders := open_orders self;
     trade_history := trade_history self;
     current_sim_prices := current_sim_prices self;
     slippage_factor := slippage_factor self;
     commission_rate := commission_rate self;
     fill_probability := fill_probability self |}.

Definition set_open_orders (self : MockExchangeAdapter)
  (oo : gmap string ExecutedOrder) : MockExchangeAdapter :=
  {| portfolio := portfolio self;
     open_orders := oo;
     trade_history := trade_history self;
     current_sim_prices := current_sim_prices self;
     slippage_factor := slippage_factor self;
     commission_rate := commission_rate self;
     fill_probability := fill_probability self |}.

Definition set_trade_history (self : MockExchangeAdapter)
  (h : list ExecutedOrder) : MockExchangeAdapter :=
  {| portfolio := portfolio self;
     open_orders := open_orders self;
     trade_history := h;
     current_sim_prices := current_sim_prices self;
     slippage_factor := slippage_factor self;
     commission_rate := commission_rate self;
     fill_probability := fill_probability self |}.

Definition set_current_sim_prices (self : MockExchangeAdapter)
  (ps : gmap string Q) : MockExchangeAdapter :=
  {| portfolio := portfolio self;
     open_orders := open_orders self;
     trade_history := trade_history self;
     current_sim_prices := ps;
     slippage_factor := slippage_factor self;
     commission_rate := commission_rate self;
     fill_probability := fill_probability self |}.

(** [_get_sim_price]: the configured price, or 1.0 when none is set, times
    [1 + (random.random() - 0.5) * 0.0005]. *)
Definition _get_sim_price (self : MockExchangeAdapter) (sym : string)
  (noise : Q) : Q :=
  let base_price :=
    match current_sim_prices self !! sym with
    | None => 1
    | Some p => p
    end in
  base_price * (1 + (noise - 0.5) * 0.0005).

(** [update_price] *)
Definition update_price (self : MockExchangeAdapter) (sym : string) (p : Q)
  : MockExchangeAdapter :=
  set_current_sim_prices self (<[sym := p]> (current_sim_prices self)).

(** [get_current_price] (awaited) *)
Definition get_current_price (self : MockExchangeAdapter) (sym : string)
  : option Q :=
  current_sim_prices self !! sym.

(** [order_request.client_order_id or f"{prefix}{uuid.uuid4().hex[:10]}"] *)
Definition order_id_or (req : OrderRequest) (prefix : string) (d : Draw)
  : string :=
  if truthy_str (client_order_id req)
  then default "" (client_order_id req)
  else prefix +:+ uid d.

(** The order built on the non-fill branch (lines 63-74). *)
Definition rejected_order (req : OrderRequest) (d : Draw) : ExecutedOrder :=
  {| order_id := order_id_or req "mock_" d;
     eo_client_order_id := client_order_id req;
     eo_symbol := symbol req;
     eo_action := action req;
     eo_order_type := order_type req;
     eo_price := if truthy_float (price req) then default 0 (price req) else 0;
     eo_quantity := quantity req;
     fee := None;
     fee_currency := None;
     status := REJECTED;
     metadata := Reason "Simulated non-fill based on probability" |}.

(** The resting order built on either unfilled LIMIT branch (lines 89-95
    and 100-106). *)
Definition pending_order (req : OrderRequest) (limit : Q) (d : Draw)
  : ExecutedOrder :=
  {| order_id := order_id_or req "mock_open_" d;
     eo_client_order_id := client_order_id req;
     eo_symbol := symbol req;
     eo_action := action req;
     eo_order_type := order_type req;
     eo_price := limit;
     eo_quantity := quantity req;
     fee := None;
     fee_currency := None;
     status := OPEN;
     metadata := NoMetadata |}.

(** The order built after settlement (lines 141-155). *)
Definition filled_order (req : OrderRequest) (quote_currency : string)
  (execution_price commission sim_price : Q) (d : Draw) : ExecutedOrder :=
  {| order_id := order_id_or req "mock_" d;
     eo_client_order_id := client_order_id req;
     eo_symbol := symbol req;
     eo_action := action req;
     eo_order_type := order_type req;
     eo_price := execution_price;
     eo_quantity := quantity req;
     fee := Some commission;
     fee_currency := Some quote_currency;
     status := FILLED;
     metadata := SimulatedMarketPriceAtTrade sim_price |}.

(** Lines 116-159: funds check, the two legs of the trade, the FILLED
    record appended to the history. *)
Definition settlement (self : MockExchangeAdapter) (req : OrderRequest)
  (base_currency quote_currency : string) (execution_price sim_price : Q)
  (d : Draw) : Outcome ExecutedOrder * MockExchangeAdapter :=
  let quantity_to_trade := quantity req in
  let cost_or_proceeds := quantity_to_trade * execution_price in
  let commission := cost_or_proceeds * commission_rate self in
  let executed_order :=
    filled_order req quote_currency execution_price commission sim_price d in
  let record (p : AgentPortfolio) :=
    (Returned executed_order,
     set_trade_history (set_portfolio self p)
       (trade_history self ++ [executed_order])) in
  match action req with
  | BUY =>
      let required_quote :=
        cost_or_proceeds +
        (if negb (String.eqb quote_currency base_currency) then commission else 0) in
      if Qltb (get0 (cash_balance (portfolio self)) quote_currency) required_quote
      then (Raised InsufficientFundsError, self)
      else
        let p1 := update_cash (portfolio self) quote_currency (- cost_or_proceeds) in
        let p2 := update_cash p1 quote_currency (- commission) in
        let p3 := update_asset p2 base_currency quantity_to_trade in
        record p3
  | SELL =>
      if Qltb (get0 (asset_holdings (portfolio self)) base_currency) quantity_to_trade
      then (Raised InsufficientFundsError, self)
      else
        let p1 := update_asset (portfolio self) base_currency (- quantity_to_trade) in
        let p2 := update_cash p1 quote_currency cost_or_proceeds in
        let p3 := update_cash p2 quote_currency (- commission) in
        record p3
  | HOLD => record (portfolio self)
  end.

(** [create_order] (lines 57-159). *)
Definition create_order (self : MockExchangeAdapter) (req : OrderRequest)
  (d : Draw) : Outcome ExecutedOrder * MockExchangeAdapter :=
  if Qltb (fill_probability self) (r_fill d) then
    (Returned (rejected_order req d), self)
  else
    match unpack2 (split slash (symbol req)) with
    | None => (Raised ValueError, self)
    | Some (base_currency, quote_currency) =>
        let sim_price := _get_sim_price self (symbol req) (r_noise d) in
        match order_type req with
        | LIMIT =>
            match price req with
            | None => (Raised TypeError, self)
            | Some limit =>
                if bool_decide (action req = BUY) && Qltb limit sim_price then
                  let o := pending_order req limit d in
                  (Returned o, set_open_orders self (<[order_id o := o]> (open_orders self)))
                else if bool_decide (action req = SELL) && Qltb sim_price limit then
                  let o := pending_order req limit d in
                  (Returned o, set_open_orders self (<[order_id o := o]> (open_orders self)))
                else
                  settlement self req base_currency quote_currency limit sim_price d
            end
        | MARKET =>
            let execution_price :=
              match action req with
              | BUY => sim_price * (1 + slippage_factor self)
              | _ => sim_price * (1 - slippage_factor self)
              end in
            settlement self req base_currency quote_currency execution_price sim_price d
        end
    end.

(** [cancel_order] (lines 161-170): the order leaves the index, becomes
    CANCELED and is appended to the history. *)
Definition set_status (o : ExecutedOrder) (s : OrderStatus) : ExecutedOrder :=
  {| order_id := order_id o;
     eo_client_order_id := eo_client_order_id o;
     eo_symbol := eo_symbol o;
     eo_action := eo_action o;
     eo_order_type := eo_order_type o;
     eo_price := eo_price o;
     eo_quantity := eo_quantity o;
     fee := fee o;
     fee_currency := fee_currency o;
     status := s;
     metadata := metadata o |}.

Definition cancel_order (self : MockExchangeAdapter) (oid : string)
  : bool * MockExchangeAdapter :=
  match open_orders self !! oid with
  | Some order_to_cancel =>
      (true,
       set_trade_history
         (set_open_orders self (delete oid (open_orders self)))
         (trade_history self ++ [set_status order_to_cancel CANCELED]))
  | None => (false, self)
  end.

(** [get_account_balance] returns the adapter's own portfolio. *)
Definition get_account_balance (self : MockExchangeAdapter) : AgentPortfolio :=
  portfolio self.

(** [shutdown] clears the open-orders index. *)
Definition shutdown (self : MockExchangeAdapter) : MockExchangeAdapter :=
  set_open_orders self ∅.

(** ** Path condition of [create_order]

    A request reaches the settlement block (lines 116-159) with execution
    price [execution_price] when it passes the non-fill roll, its symbol
    unpacks into base and quote currency, and it is either a MARKET order
    (price with slippage) or a LIMIT order that neither resting branch
    takes (price = limit). *)
Definition reaches_settlement (self : MockExchangeAdapter) (req : OrderRequest)
  (d : Draw) (base_currency quote_currency : string) (execution_price : Q)
  : Prop :=
  let sim_price := _get_sim_price self (symbol req) (r_noise d) in
  ¬ (fill_probability self < r_fill d) ∧
  unpack2 (split slash (symbol req)) = Some (base_currency, quote_currency) ∧
  match order_type req with
  | MARKET =>
      execution_price =
        match action req with
        | BUY => sim_price * (1 + slippage_factor self)
        | _ => sim_price * (1 - slippage_factor self)
        end
  | LIMIT =>
      price req = Some execution_price ∧
      ¬ (action req = BUY ∧ execution_price < sim_price) ∧
      ¬ (action req = SELL ∧ sim_price < execution_price)
  end.

(** What a BUY does to the two ledgers once the funds check has passed. *)
Definition buy_legs (p : AgentPortfolio) (base_currency quote_currency : string)
  (quantity_to_trade cost_or_proceeds commission : Q) : AgentPortfolio :=
  update_asset
    (update_cash (update_cash p quote_currency (- cost_or_proceeds))
       quote_currency (- commission))
    base_currency quantity_to_trade.

Definition sell_legs (p : AgentPortfolio) (base_currency quote_currency : string)
  (quantity_to_trade cost_or_proceeds commission : Q) : AgentPortfolio :=
  update_cash
    (update_cash (update_asset p base_currency (- quantity_to_trade))
       quote_currency cost_or_proceeds)
    quote_currency (- commission).


(** ** Concrete adapters and requests used in examples *)

(** The scenario of the specification: 10000 USDT, BTC/USDT at 50000,
    slippage and commission 0.1 percent, every order passes the roll. *)
Definition scenario_adapter : MockExchangeAdapter :=
  {| portfolio := {| cash_balance := {[ "USDT" := 10000 ]}; asset_holdings := ∅ |};
     open_orders := ∅;
     trade_history := [];
     current_sim_prices := {[ "BTC/USDT" := 50000 ]};
     slippage_factor := 0.001;
     commission_rate := 0.001;
     fill_probability := 1 |}.

Definition with_fill_probability (self : MockExchangeAdapter) (fp : Q)
  : MockExchangeAdapter :=
  {| portfolio := portfolio self;
     open_orders := open_orders self;
     trade_history := trade_history self;
     current_sim_prices := current_sim_prices self;
     slippage_factor := slippage_factor self;
     commission_rate := commission_rate self;
     fill_probability := fp |}.

Definition market_order (sym : string) (a : OrderAction) (qty : Q)
  : OrderRequest :=
  {| request_id := "req_1";
     symbol := sym;
     action := a;
     order_type := MARKET;
     quantity := qty;
     price := None;
     client_order_id := None;
     strategy_name := None |}.

Definition limit_order (sym : string) (a : OrderAction) (qty limit : Q)
  : OrderRequest :=
  {| request_id := "req_1";
     symbol := sym;
     action := a;
     order_type := LIMIT;
     quantity := qty;
     price := Some limit;
     client_order_id := None;
     strategy_name := None |}.

(** MARKET BUY 0.1 BTC/USDT. *)
Definition scenario_request : OrderRequest := market_order "BTC/USDT" BUY 0.1.

(** A draw whose noise roll is exactly one half: the simulated price is
    the configured one. *)
Definition draw_mid : Draw := {| r_fill := 0.5; r_noise := 0.5; uid := "00000000aa" |}.

(** A draw whose noise roll is 0: the simulated price is 0.025 percent
    below the configured one. *)
Definition draw_low : Draw := {| r_fill := 0.5; r_noise := 0; uid := "00000000bb" |}.

(** A draw whose non-fill roll is exactly 0.0. *)
Definition draw_zero : Draw := {| r_fill := 0; r_noise := 0.5; uid := "00000000cc" |}.

(** A draw whose non-fill roll is 0.9. *)
Definition draw_high : Draw := {| r_fill := 0.9; r_noise := 0.5; uid := "00000000dd" |}.

(** A pair whose base and quote currency coincide, with a balance that
    covers the cost of one unit at 100.1 but not the commission. *)
Definition same_currency_adapter : MockExchangeAdapter :=
  {| portfolio := {| cash_balance := {[ "USDT" := 100.1 ]}; asset_holdings := ∅ |};
     open_orders := ∅;
     trade_history := [];
     current_sim_prices := {[ "USDT/USDT" := 100 ]};
     slippage_factor := 0.001;
     commission_rate := 0.001;
     fill_probability := 1 |}.

(** The scenario adapter with a fill probability of one half. *)
Definition flaky_adapter : MockExchangeAdapter :=
  with_fill_probability scenario_adapter 0.5.

(** ** Sequences of adapter calls *)

Inductive AdapterCall : Type :=
  | CallCreateOrder (req : OrderRequest) (d : Draw)
  | CallCancelOrder (oid : string)
  | CallUpdatePrice (sym : string) (p : Q)
  | CallGetAccountBalance
  | CallShutdown.

(** The adapter after one call. *)
Definition call (self : MockExchangeAdapter) (c : AdapterCall)
  : MockExchangeAdapter :=
  match c with
  | CallCreateOrder req d => snd (create_order self req d)
  | CallCancelOrder oid => snd (cancel_order self oid)
  | CallUpdatePrice sym p => update_price self sym p
  | CallGetAccountBalance => self
  | CallShutdown => shutdown self
  end.

Definition run (self : MockExchangeAdapter) (cs : list AdapterCall)
  : MockExchangeAdapter :=
  fold_left call cs self.

(** The calls that write the entry [oid] of the open-orders index:
    cancelling it, shutting down, and a new order that may rest under the
    same id. *)
Definition writes_entry (oid : string) (c : AdapterCall) : Prop :=
  match c with
  | CallCreateOrder req d => order_id_or req "mock_open_" d = oid
  | CallCancelOrder x => x = oid
  | CallShutdown => True
  | CallUpdatePrice _ _ | CallGetAccountBalance => False
  end.

(** ** Trading signals *)

(** Modelled from the spec: [TradingSignal] of [agent/trading_models.py]:
    symbol, action, confidence, quantity_percentage or quantity_absolute,
    optional price, strategy_name.  The metadata dictionary only feeds log
    lines and is left out. *)
Record TradingSignal : Type := mkTradingSignal {
  sig_symbol : string;
  sig_action : OrderAction;
  sig_confidence : option Q;
  quantity_percentage : option Q;
  quantity_absolute : option Q;
  sig_price : option Q;
  sig_strategy_name : string
}.

(** ** MovingAverageCrossoverStrategy *)

(** One row of [self.data] after [dropna()]. *)
Record SmaRow : Type := mkSmaRow {
  close : Q;
  sma_short : Q;
  sma_long : Q
}.

Record MovingAverageCrossoverStrategy : Type := mkMovingAverageCrossoverStrategy {
  mac_strategy_name : string;
  mac_symbol : string;
  short_window : nat;
  long_window : nat;
  mac_trade_quantity_percentage : Q;
  position_active : bool;
  mac_is_initialized : bool
}.

Definition set_position_active (self : MovingAverageCrossoverStrategy)
  (b : bool) : MovingAverageCrossoverStrategy :=
  {| mac_strategy_name := mac_strategy_name self;
     mac_symbol := mac_symbol self;
     short_window := short_window self;
     long_window := long_window self;
     mac_trade_quantity_percentage := mac_trade_quantity_percentage self;
     position_active := b;
     mac_is_initialized := mac_is_initialized self |}.

(** [xs[0]] and [xs[-1]] of the list returned by [split], which is never
    empty. *)
Definition first_part (xs : list string) : string := hd "" xs.
Definition last_part (xs : list string) : string := List.last xs "".

(** [generate_signals] (lines 78-159).  [data] is what
    [_fetch_and_prepare_data] leaves in [self.data]: [None] when it
    returns False, otherwise the rows with both averages defined, oldest
    first. *)
Definition mac_generate_signals (self : MovingAverageCrossoverStrategy)
  (data : option (list SmaRow)) (pf : AgentPortfolio)
  : list TradingSignal * MovingAverageCrossoverStrategy :=
  match data with
  | None => ([], self)
  | Some rows =>
      match rev rows with
      | [] => ([], self)
      | latest_data :: older =>
          let previous_data := match older with [] => latest_data | p :: _ => p end in
          let current_price := close latest_data in
          let quote_currency := last_part (split slash (mac_symbol self)) in
          let base_currency := first_part (split slash (mac_symbol self)) in
          if Qle_bool (sma_short previous_data) (sma_long previous_data)
             && Qltb (sma_long latest_data) (sma_short latest_data) then
            if negb (position_active self) then
              if Qltb 0 (get0 (cash_balance pf) quote_currency) then
                ([ {| sig_symbol := mac_symbol self;
                      sig_action := BUY;
                      sig_confidence := Some 0.8;
                      quantity_percentage := Some (mac_trade_quantity_percentage self);
                      quantity_absolute := None;
                      sig_price := Some current_price;
                      sig_strategy_name := mac_strategy_name self |} ],
                 set_position_active self true)
              else ([], self)
            else ([], self)
          else if Qle_bool (sma_long previous_data) (sma_short previous_data)
                  && Qltb (sma_short latest_data) (sma_long latest_data) then
            if position_active self then
              if Qltb 0 (get0 (asset_holdings pf) base_currency) then
                ([ {| sig_symbol := mac_symbol self;
                      sig_action := SELL;
                      sig_confidence := Some 0.8;
                      quantity_percentage := Some 1;
                      quantity_absolute := None;
                      sig_price := Some current_price;
                      sig_strategy_name := mac_strategy_name self |} ],
                 set_position_active self false)
              else ([], set_position_active self false)
            else ([], self)
          else
            ([ {| sig_symbol := mac_symbol self;
                  sig_action := HOLD;
                  sig_confidence := Some 0.5;
                  quantity_percentage := None;
                  quantity_absolute := None;
                  sig_price := None;
                  sig_strategy_name := mac_strategy_name self |} ],
             self)
      end
  end.

(** [on_order_update] (lines 161-174). *)
Definition mac_on_order_update (self : MovingAverageCrossoverStrategy)
  (executed_order : ExecutedOrder) : MovingAverageCrossoverStrategy :=
  if String.eqb (eo_symbol executed_order) (mac_symbol self)
     && bool_decide (status executed_order = FILLED) then
    match eo_action executed_order with
    | BUY => set_position_active self true
    | SELL => set_position_active self false
    | HOLD => self
    end
  else self.

(** ** SentimentLLMStrategy *)

Record SentimentLLMStrategy : Type := mkSentimentLLMStrategy {
  sl_strategy_name : string;
  target_symbols : list string;
  sentiment_threshold_buy : Q;
  sentiment_threshold_sell : Q;
  sl_trade_quantity_percentage : Q;
  sl_quote_currency : string;
  active_positions : gmap string bool;
  sl_is_initialized : bool
}.

Definition set_active_positions (self : SentimentLLMStrategy)
  (ap : gmap string bool) : SentimentLLMStrategy :=
  {| sl_strategy_name := sl_strategy_name self;
     target_symbols := target_symbols self;
     sentiment_threshold_buy := sentiment_threshold_buy self;
     sentiment_threshold_sell := sentiment_threshold_sell self;
     sl_trade_quantity_percentage := sl_trade_quantity_percentage self;
     sl_quote_currency := sl_quote_currency self;
     active_positions := ap;
     sl_is_initialized := sl_is_initialized self |}.

(** The [convert] table of [_analyze_sentiment_for_symbol]. *)
Definition convert (label : string) : option Q :=
  if String.eqb label "Positive" then Some 1
  else if String.eqb label "Negative" then Some (- 1)
  else if String.eqb label "Neutral" then Some 0
  else None.

(** The loop of [_analyze_sentiment_for_symbol] over the articles
    (lines 88-111).  Each article comes with what [analyze_sentiment]
    answered for it; [None] stands for a call that raised. *)
Fixpoint score_articles (answers : list (option string)) (total_score : Q)
  (valid_analyses : nat) : Q * nat :=
  match answers with
  | [] => (total_score, valid_analyses)
  | Some sentiment_result :: rest =>
      match convert sentiment_result with
      | Some v => score_articles rest (total_score + v) (S valid_analyses)
      | None => score_articles rest total_score valid_analyses
      end
  | None :: rest => score_articles rest total_score valid_analyses
  end.

(** [_analyze_sentiment_for_symbol] (lines 77-118). *)
Definition _analyze_sentiment_for_symbol (has_analyzer : bool)
  (answers : list (option string)) : Q :=
  if negb has_analyzer || bool_decide (answers = []) then 0
  else
    let '(total_score, valid_analyses) := score_articles answers 0 0%nat in
    if Nat.eqb valid_analyses 0 then 0
    else total_score / inject_Z (Z.of_nat valid_analyses).

(** The external inputs of one [generate_signals] call of the sentiment
    strategy: the analyzer's answers for the recent relevant articles of
    each target symbol, and the last ticker price of each trading pair
    ([None] when there is no market data source, the fetch raised, or no
    ticker came back). *)
Record SentimentInputs : Type := mkSentimentInputs {
  has_sentiment_analyzer : bool;
  answers_for : string → list (option string);
  ticker_last : string → option Q
}.

(** The body of the loop over [target_symbols] (lines 129-213). *)
Definition sl_signal_for (self : SentimentLLMStrategy) (inp : SentimentInputs)
  (pf : AgentPortfolio) (symbol_base : string)
  : TradingSignal * SentimentLLMStrategy :=
  let trading_pair := symbol_base +:+ "/" +:+ sl_quote_currency self in
  let hold (c : option Q) :=
    {| sig_symbol := trading_pair;
       sig_action := HOLD;
       sig_confidence := c;
       quantity_percentage := None;
       quantity_absolute := None;
       sig_price := None;
       sig_strategy_name := sl_strategy_name self |} in
  let articles_for_symbol := answers_for inp symbol_base in
  if bool_decide (articles_for_symbol = []) then (hold None, self)
  else
    let average_sentiment_score :=
      _analyze_sentiment_for_symbol (has_sentiment_analyzer inp) articles_for_symbol in
    let current_price := ticker_last inp trading_pair in
    let active := default false (active_positions self !! symbol_base) in
    let emit (a : OrderAction) (c : Q) (flag : bool) :=
      ({| sig_symbol := trading_pair;
          sig_action := a;
          sig_confidence := Some c;
          quantity_percentage :=
            Some (if bool_decide (a = BUY) then sl_trade_quantity_percentage self else 1);
          quantity_absolute := None;
          sig_price := current_price;
          sig_strategy_name := sl_strategy_name self |},
       set_active_positions self (<[symbol_base := flag]> (active_positions self))) in
    if Qltb (sentiment_threshold_buy self) average_sentiment_score then
      if negb active then
        if Qltb 0 (get0 (cash_balance pf) (sl_quote_currency self)) then
          emit BUY
            (Qmin (0.5 + (average_sentiment_score - sentiment_threshold_buy self) * 0.5) 0.95)
            true
        else (hold (Some 0.5), self)
      else (hold (Some 0.5), self)
    else if Qltb average_sentiment_score (sentiment_threshold_sell self) then
      if active then
        if Qltb 0 (get0 (asset_holdings pf) symbol_base) then
          emit SELL
            (Qmin (0.5 + Qabs (average_sentiment_score - sentiment_threshold_sell self) * 0.5) 0.95)
            false
        else
          (hold (Some 0.5),
           set_active_positions self (<[symbol_base := false]> (active_positions self)))
      else (hold (Some 0.5), self)
    else (hold (Some 0.5), self).

(** [generate_signals] (lines 120-216): one signal per target symbol. *)
Fixpoint sl_loop (self : SentimentLLMStrategy) (inp : SentimentInputs)
  (pf : AgentPortfolio) (symbols : list string)
  : list TradingSignal * SentimentLLMStrategy :=
  match symbols with
  | [] => ([], self)
  | symbol_base :: rest =>
      let '(s, self1) := sl_signal_for self inp pf symbol_base in
      let '(ss, self2) := sl_loop self1 inp pf rest in
      (s :: ss, self2)
  end.

Definition sl_generate_signals (self : SentimentLLMStrategy)
  (inp : SentimentInputs) (pf : AgentPortfolio)
  : list TradingSignal * SentimentLLMStrategy :=
  if negb (has_sentiment_analyzer inp) then ([], self)
  else sl_loop self inp pf (target_symbols self).

(** [on_order_update] (lines 218-228). *)
Definition sl_on_order_update (self : SentimentLLMStrategy)
  (executed_order : ExecutedOrder) : SentimentLLMStrategy :=
  let symbol_base := first_part (split slash (eo_symbol executed_order)) in
  if bool_decide (symbol_base ∈ target_symbols self)
     && bool_decide (status executed_order = FILLED) then
    match eo_action executed_order with
    | BUY => set_active_positions self (<[symbol_base := true]> (active_positions self))
    | SELL => set_active_positions self (<[symbol_base := false]> (active_positions self))
    | HOLD => self
    end
  else self.

(** ** The strategies an agent holds *)

Inductive Strategy : Type :=
  | MovingAverageCrossover (s : MovingAverageCrossoverStrategy)
  | SentimentLLM (s : SentimentLLMStrategy).

Definition strategy_name_of (s : Strategy) : string :=
  match s with
  | MovingAverageCrossover m => mac_strategy_name m
  | SentimentLLM l => sl_strategy_name l
  end.

Definition on_order_update (s : Strategy) (executed_order : ExecutedOrder)
  : Strategy :=
  match s with
  | MovingAverageCrossover m => MovingAverageCrossover (mac_on_order_update m executed_order)
  | SentimentLLM l => SentimentLLM (sl_on_order_update l executed_order)
  end.

(** [BaseStrategy.initialize] sets [is_initialized]. *)
Definition strategy_initialize (s : Strategy) : Strategy :=
  match s with
  | MovingAverageCrossover m =>
      MovingAverageCrossover
        {| mac_strategy_name := mac_strategy_name m;
           mac_symbol := mac_symbol m;
           short_window := short_window m;
           long_window := long_window m;
           mac_trade_quantity_percentage := mac_trade_quantity_percentage m;
           position_active := position_active m;
           mac_is_initialized := true |}
  | SentimentLLM l =>
      SentimentLLM
        {| sl_strategy_name := sl_strategy_name l;
           target_symbols := target_symbols l;
           sentiment_threshold_buy := sentiment_threshold_buy l;
           sentiment_threshold_sell := sentiment_threshold_sell l;
           sl_trade_quantity_percentage := sl_trade_quantity_percentage l;
           sl_quote_currency := sl_quote_currency l;
           active_positions := active_positions l;
           sl_is_initialized := true |}
  end.

(** A crossover strategy on BTC/USDT, flat, with default parameters. *)
Definition ma_strategy : MovingAverageCrossoverStrategy :=
  {| mac_strategy_name := "ma_cross";
     mac_symbol := "BTC/USDT";
     short_window := 20;
     long_window := 50;
     mac_trade_quantity_percentage := 0.1;
     position_active := false;
     mac_is_initialized := true |}.

(** Two rows on which the short average crosses above the long one. *)
Definition golden_cross : list SmaRow :=
  [ {| close := 49000; sma_short := 48000; sma_long := 48500 |};
    {| close := 50000; sma_short := 49000; sma_long := 48600 |} ].

(** A sentiment strategy on BTC and ETH, flat, with default parameters. *)
Definition sentiment_strategy : SentimentLLMStrategy :=
  {| sl_strategy_name := "sentiment";
     target_symbols := ["BTC"; "ETH"];
     sentiment_threshold_buy := 0.6;
     sentiment_threshold_sell := - 0.4;
     sl_trade_quantity_percentage := 0.05;
     sl_quote_currency := "USDT";
     active_positions := {[ "BTC" := false; "ETH" := false ]};
     sl_is_initialized := true |}.

(** Two positive articles about BTC, none about ETH, no ticker. *)
Definition good_news : SentimentInputs :=
  {| has_sentiment_analyzer := true;
     answers_for := λ s, if String.eqb s "BTC" then [Some "Positive"; Some "Positive"] else [];
     ticker_last := λ _, None |}.

(** ** The adapter interface seen by the agent *)

(** What a name can be bound to when the agent asks for a price: a float,
    [None], or the coroutine object that calling an [async def] method
    without [await] yields. *)
Inductive PyPrice : Type :=
  | PyNone
  | PyFloat (x : Q)
  | PyCoroutine.

(** Truth value: [None] and [0.0] are falsy, a coroutine object is truthy. *)
Definition truthy (v : PyPrice) : bool :=
  match v with
  | PyNone => false
  | PyFloat x => negb (Qeq_bool x 0)
  | PyCoroutine => true
  end.

Definition of_optional (x : option Q) : PyPrice :=
  match x with
  | None => PyNone
  | Some q => PyFloat q
  end.

(** [BaseExchangeAdapter]: the capability set the agent uses.  Each method
    is the awaited call, except [get_current_price_unawaited], which is the
    value of the expression [adapter.get_current_price(symbol)] as line 135
    of [trading_agent.py] writes it, without [await]. *)
Class BaseExchangeAdapter (A : Type) : Type := {
  adapter_initialize : A → Outcome unit * A;
  adapter_create_order : A → OrderRequest → Draw → Outcome ExecutedOrder * A;
  adapter_get_account_balance : A → Outcome AgentPortfolio * A;
  get_current_price_unawaited : A → string → PyPrice;
  adapter_shutdown : A → Outcome unit * A
}.

(** [MockExchangeAdapter] implements the interface; its
    [get_current_price] is an [async def], so the un-awaited call is a
    coroutine object. *)
#[global] Instance MockExchangeAdapter_adapter : BaseExchangeAdapter MockExchangeAdapter := {
  adapter_initialize := λ self, (Returned (), self);
  adapter_create_order := create_order;
  adapter_get_account_balance := λ self, (Returned (get_account_balance self), self);
  get_current_price_unawaited := λ _ _, PyCoroutine;
  adapter_shutdown := λ self, (Returned (), shutdown self)
}.

(** An adapter whose [initialize] raises (a ledger that cannot be
    reached at startup) and which otherwise behaves like the mock. *)
Record UnreachableAtStartup : Type := mkUnreachableAtStartup {
  inner : MockExchangeAdapter
}.

#[global] Instance UnreachableAtStartup_adapter : BaseExchangeAdapter UnreachableAtStartup := {
  adapter_initialize := λ self, (Raised ExchangeAdapterError, self);
  adapter_create_order := λ self req d,
    let '(r, m) := create_order (inner self) req d in (r, mkUnreachableAtStartup m);
  adapter_get_account_balance := λ self,
    (Returned (get_account_balance (inner self)), self);
  get_current_price_unawaited := λ _ _, PyCoroutine;
  adapter_shutdown := λ self, (Returned (), mkUnreachableAtStartup (shutdown (inner self)))
}.

(** ** TradingAgent *)

(** [fetch_ticker(symbol)] of the market data source: it raises, or it
    returns a ticker whose [last] is a price, or nothing usable. *)
Definition MarketDataSource : Type := string → Outcome (option Q).

Record TradingAgent (A : Type) : Type := mkTradingAgent {
  strategies : list Strategy;
  agent_portfolio : AgentPortfolio;
  is_running : bool;
  exchange_adapter : option A;
  market_data_source : option MarketDataSource
}.
Arguments mkTradingAgent {A} _ _ _ _ _.
Arguments strategies {A} _.
Arguments agent_portfolio {A} _.
Arguments is_running {A} _.
Arguments exchange_adapter {A} _.
Arguments market_data_source {A} _.

(** What became of one signal; every constructor stands for the log line
    the source writes on that path. *)
Inductive SignalResult : Type :=
  | Held
  | SkippedBalanceFetch (e : Exn)
  | SkippedNoPrice
  | SkippedInvalidPrice
  | SkippedNoQuantityInfo
  | SkippedInvalidQuantity
  | Placed (executed_order : ExecutedOrder)
  | PlacementFailed (e : Exn).

Section Agent.
Context {A : Type} `{BaseExchangeAdapter A}.

Definition set_adapter_portfolio (agent : TradingAgent A) (a : A)
  (p : AgentPortfolio) : TradingAgent A :=
  {| strategies := strategies agent;
     agent_portfolio := p;
     is_running := is_running agent;
     exchange_adapter := Some a;
     market_data_source := market_data_source agent |}.

Definition set_strategies (agent : TradingAgent A) (ss : list Strategy)
  : TradingAgent A :=
  {| strategies := ss;
     agent_portfolio := agent_portfolio agent;
     is_running := is_running agent;
     exchange_adapter := exchange_adapter agent;
     market_data_source := market_data_source agent |}.

Definition set_is_running (agent : TradingAgent A) (b : bool)
  : TradingAgent A :=
  {| strategies := strategies agent;
     agent_portfolio := agent_portfolio agent;
     is_running := b;
     exchange_adapter := exchange_adapter agent;
     market_data_source := market_data_source agent |}.

(** Lines 199-202: the first strategy with the signal's name is told
    about the order. *)
Fixpoint notify (ss : list Strategy) (name : string)
  (executed_order : ExecutedOrder) : list Strategy :=
  match ss with
  | [] => []
  | strat :: rest =>
      if String.eqb (strategy_name_of strat) name
      then on_order_update strat executed_order :: rest
      else strat :: notify rest name executed_order
  end.

(** Lines 128-156: the quantity of a BUY.  [inl r] leaves the iteration
    by [continue] with result [r]; [inr (Raised e)] is an exception
    raised outside every [try]; [inr (Returned (qty, target_price))]
    goes on. *)
Definition buy_quantity (agent : TradingAgent A) (a : A)
  (signal : TradingSignal) (available_quote_balance : Q)
  : SignalResult + Outcome (Q * PyPrice) :=
  let target_price := of_optional (sig_price signal) in
  if truthy_float (quantity_absolute signal) then
    inr (Returned (default 0 (quantity_absolute signal), target_price))
  else if truthy_float (quantity_percentage signal) then
    let priced : SignalResult + PyPrice :=
      if negb (truthy target_price) then
        let fetched_price := get_current_price_unawaited a (sig_symbol signal) in
        let fetched_price :=
          if negb (truthy fetched_price) then
            match market_data_source agent with
            | Some fetch_ticker =>
                match fetch_ticker (sig_symbol signal) with
                | Returned last => of_optional last
                | Raised _ => fetched_price
                end
            | None => fetched_price
            end
          else fetched_price in
        if negb (truthy fetched_price) then inl SkippedNoPrice
        else inr fetched_price
      else inr target_price in
    match priced with
    | inl r => inl r
    | inr target_price =>
        let spend_amount_quote :=
          available_quote_balance * default 0 (quantity_percentage signal) in
        match target_price with
        | PyFloat p =>
            if Qltb 0 p then inr (Returned (spend_amount_quote / p, target_price))
            else inl SkippedInvalidPrice
        | PyNone | PyCoroutine => inr (Raised TypeError)
        end
    end
  else inl SkippedNoQuantityInfo.

(** Lines 158-165: the quantity of a SELL. *)
Definition sell_quantity (signal : TradingSignal) (available_base_balance : Q)
  : SignalResult + Q :=
  if truthy_float (quantity_absolute signal) then
    inr (default 0 (quantity_absolute signal))
  else if truthy_float (quantity_percentage signal) then
    inr (available_base_balance * default 0 (quantity_percentage signal))
  else inl SkippedNoQuantityInfo.

(** Lines 167-211: the quantity check, the order request, the call to
    the adapter inside [try], the refreshed portfolio and the
    notification of the strategy. *)
Definition place (agent : TradingAgent A) (a : A) (signal : TradingSignal)
  (order_quantity_base : Q) (target_price : PyPrice) (d : Draw)
  : SignalResult * TradingAgent A :=
  if Qle_bool order_quantity_base 0.000000001 then
    (SkippedInvalidQuantity, agent)
  else
    let order_type_to_place :=
      match sig_price signal with
      | Some _ => LIMIT
      | None => MARKET
      end in
    let order_req :=
      {| request_id := "req_" +:+ uid d;
         symbol := sig_symbol signal;
         action := sig_action signal;
         order_type := order_type_to_place;
         quantity := order_quantity_base;
         price :=
           match order_type_to_place, target_price with
           | LIMIT, PyFloat p => Some p
           | _, _ => None
           end;
         client_order_id := None;
         strategy_name := Some (sig_strategy_name signal) |} in
    match adapter_create_order a order_req d with
    | (Raised e, a1) =>
        (PlacementFailed e, set_adapter_portfolio agent a1 (agent_portfolio agent))
    | (Returned executed_order, a1) =>
        match adapter_get_account_balance a1 with
        | (Raised e, a2) =>
            (PlacementFailed e, set_adapter_portfolio agent a2 (agent_portfolio agent))
        | (Returned p, a2) =>
            (Placed executed_order,
             set_strategies (set_adapter_portfolio agent a2 p)
               (notify (strategies agent) (sig_strategy_name signal) executed_order))
        end
    end.

(** The body of the loop of [_process_signals] (lines 100-211) for one
    signal.  [Raised e] is an exception that leaves the loop.  The adapter
    is read from the agent at every use; were it missing, the attribute
    access of line 115 would fail inside its [try]. *)
Definition process_signal (agent : TradingAgent A) (signal : TradingSignal)
  (d : Draw) : Outcome SignalResult * TradingAgent A :=
  match sig_action signal with
  | HOLD => (Returned Held, agent)
  | side =>
      match unpack2 (split slash (sig_symbol signal)) with
      | None => (Raised ValueError, agent)
      | Some (base_currency, quote_currency) =>
          match exchange_adapter agent with
          | None => (Returned (SkippedBalanceFetch AttributeError), agent)
          | Some a =>
              match adapter_get_account_balance a with
              | (Raised e, a1) =>
                  (Returned (SkippedBalanceFetch e),
                   set_adapter_portfolio agent a1 (agent_portfolio agent))
              | (Returned current_portfolio, a1) =>
                  let agent1 := set_adapter_portfolio agent a1 current_portfolio in
                  let available_quote_balance :=
                    get0 (cash_balance current_portfolio) quote_currency in
                  let available_base_balance :=
                    get0 (asset_holdings current_portfolio) base_currency in
                  match side with
                  | BUY =>
                      match buy_quantity agent1 a1 signal available_quote_balance with
                      | inl r => (Returned r, agent1)
                      | inr (Raised e) => (Raised e, agent1)
                      | inr (Returned (qty, target_price)) =>
                          let '(r, agent2) := place agent1 a1 signal qty target_price d in
                          (Returned r, agent2)
                      end
                  | _ =>
                      match sell_quantity signal available_base_balance with
                      | inl r => (Returned r, agent1)
                      | inr qty =>
                          let '(r, agent2) :=
                            place agent1 a1 signal qty (of_optional (sig_price signal)) d in
                          (Returned r, agent2)
                      end
                  end
              end
          end
      end
  end.

(** The [for] loop of [_process_signals]: the first exception that
    escapes an iteration ends the loop; the signals after it are not
    looked at. *)
Fixpoint process_loop (agent : TradingAgent A)
  (signals : list (TradingSignal * Draw))
  : Outcome (list SignalResult) * TradingAgent A :=
  match signals with
  | [] => (Returned [], agent)
  | (signal, d) :: rest =>
      match process_signal agent signal d with
      | (Raised e, agent1) => (Raised e, agent1)
      | (Returned r, agent1) =>
          match process_loop agent1 rest with
          | (Raised e, agent2) => (Raised e, agent2)
          | (Returned rs, agent2) => (Returned (r :: rs), agent2)
          end
      end
  end.

(** [_process_signals] (lines 93-211).  Each signal comes with the draw
    the adapter consumes if the signal gets as far as [create_order]. *)
Definition _process_signals (agent : TradingAgent A)
  (signals : list (TradingSignal * Draw))
  : Outcome (list SignalResult) * TradingAgent A :=
  match signals with
  | [] => (Returned [], agent)
  | _ =>
      match exchange_adapter agent with
      | None => (Returned [], agent)
      | Some _ => process_loop agent signals
      end
  end.

(** [initialize_components] (lines 64-90).  The first component is the
    exception caught from the adapter, if any; the strategies are
    initialized either way. *)
Definition initialize_components (agent : TradingAgent A)
  : option Exn * TradingAgent A :=
  let '(failure, agent1) :=
    match exchange_adapter agent with
    | Some a =>
        match adapter_initialize a with
        | (Returned _, a1) =>
            match adapter_get_account_balance a1 with
            | (Returned p, a2) => (None, set_adapter_portfolio agent a2 p)
            | (Raised e, a2) =>
                (Some e, set_adapter_portfolio agent a2 (agent_portfolio agent))
            end
        | (Raised e, a1) =>
            (Some e, set_adapter_portfolio agent a1 (agent_portfolio agent))
        end
    | None => (None, agent)
    end in
  (failure, set_strategies agent1 (map strategy_initialize (strategies agent1))).

(** [_run_cycle] (lines 213-278) from the point where the signals of all
    strategies have been gathered: [all_signals] is an input. *)
Definition _run_cycle (agent : TradingAgent A)
  (all_signals : list (TradingSignal * Draw))
  : Outcome (list SignalResult) * TradingAgent A :=
  let '(r, agent1) :=
    match all_signals with
    | [] => (Returned [], agent)
    | _ => _process_signals agent all_signals
    end in
  match r with
  | Raised e => (Raised e, agent1)
  | Returned rs =>
      match exchange_adapter agent1 with
      | Some a =>
          match adapter_get_account_balance a with
          | (Returned _, a1) =>
              (Returned rs, set_adapter_portfolio agent1 a1 (agent_portfolio agent1))
          | (Raised e, a1) =>
              (Raised e, set_adapter_portfolio agent1 a1 (agent_portfolio agent1))
          end
      | None => (Returned rs, agent1)
      end
  end.

(** [stop] (lines 310-334). *)
Definition stop (agent : TradingAgent A) : TradingAgent A :=
  let agent1 := set_is_running agent false in
  match exchange_adapter agent1 with
  | Some a =>
      let '(_, a1) := adapter_shutdown a in
      set_adapter_portfolio agent1 a1 (agent_portfolio agent1)
  | None => agent1
  end.

(** What [start] does, in order. *)
Inductive StartEvent : Type :=
  | RefusedNoStrategies
  | RefusedNoAdapter
  | AdapterInitialized
  | AdapterInitializeFailed (e : Exn)
  | Started
  | CycleDone (results : list SignalResult)
  | CriticalError (e : Exn)
  | Stopped.

(** The [while self.is_running] loop of [start].  One element of
    [cycles] is consumed per iteration; when the list is used up another
    task has called [stop] and the flag is found False. *)
Fixpoint main_loop (agent : TradingAgent A)
  (cycles : list (list (TradingSignal * Draw)))
  : list StartEvent * TradingAgent A :=
  match cycles with
  | [] => ([], agent)
  | all_signals :: later =>
      match _run_cycle agent all_signals with
      | (Raised e, agent1) => ([CriticalError e], agent1)
      | (Returned rs, agent1) =>
          let '(evs, agent2) := main_loop agent1 later in
          (CycleDone rs :: evs, agent2)
      end
  end.

(** [start] (lines 281-307). *)
Definition start (agent : TradingAgent A)
  (cycles : list (list (TradingSignal * Draw)))
  : list StartEvent * TradingAgent A :=
  match strategies agent with
  | [] => ([RefusedNoStrategies], agent)
  | _ =>
      match exchange_adapter agent with
      | None => ([RefusedNoAdapter], agent)
      | Some _ =>
          let '(failure, agent1) := initialize_components agent in
          let init_event :=
            match failure with
            | None => AdapterInitialized
            | Some e => AdapterInitializeFailed e
            end in
          let agent2 := set_is_running agent1 true in
          let '(evs, agent3) := main_loop agent2 cycles in
          (init_event :: Started :: evs ++ [Stopped], stop agent3)
      end
  end.

End Agent.

(** ** Concrete agents and signals used in examples *)

Definition agent_with {A : Type} (a : A) (ss : list Strategy) : TradingAgent A :=
  {| strategies := ss;
     agent_portfolio := {| cash_balance := {[ "USDT" := 10000 ]}; asset_holdings := ∅ |};
     is_running := false;
     exchange_adapter := Some a;
     market_data_source := None |}.

(** BUY with 10 percent of the quote balance, no price on the signal. *)
Definition percentage_buy : TradingSignal :=
  {| sig_symbol := "BTC/USDT";
     sig_action := BUY;
     sig_confidence := Some 0.8;
     quantity_percentage := Some 0.1;
     quantity_absolute := None;
     sig_price := None;
     sig_strategy_name := "sentiment" |}.

(** BUY of 0.1 BTC at market. *)
Definition absolute_buy : TradingSignal :=
  {| sig_symbol := "BTC/USDT";
     sig_action := BUY;
     sig_confidence := Some 0.8;
     quantity_percentage := None;
     quantity_absolute := Some 0.1;
     sig_price := None;
     sig_strategy_name := "sentiment" |}.

(** BUY of 1000 BTC at market: more than the balance covers. *)
Definition oversized_buy : TradingSignal :=
  {| sig_symbol := "BTC/USDT";
     sig_action := BUY;
     sig_confidence := Some 0.8;
     quantity_percentage := None;
     quantity_absolute := Some 1000;
     sig_price := None;
     sig_strategy_name := "sentiment" |}.



(** ** More of the adapter: order lookup *)

(** [get_order_status] (lines 172-178): the open-orders index first, then
    the first entry of the history with that id. *)
Definition get_order_status (self : MockExchangeAdapter) (oid : string)
  : option ExecutedOrder :=
  match open_orders self !! oid with
  | Some o => Some o
  | None => List.find (λ trade, String.eqb (order_id trade) oid) (trade_history self)
  end.

(** [get_open_orders] (lines 180-183).  The values of the index, filtered
    by symbol when a non-empty symbol is given.  The order in which a
    Python dict lists its values (insertion order) is not modelled: the
    result is to be read as a collection. *)
Definition get_open_orders (self : MockExchangeAdapter) (sym : option string)
  : list ExecutedOrder :=
  let values := map snd (map_to_list (open_orders self)) in
  if truthy_str sym
  then List.filter (λ order, String.eqb (eo_symbol order) (default "" sym)) values
  else values.

(** ** Predicates used in invariants *)

(** No balance of the portfolio is negative. *)
Definition nonneg_balances (p : AgentPortfolio) : Prop :=
  map_Forall (λ _ v, 0 <= v) (cash_balance p) ∧
  map_Forall (λ _ v, 0 <= v) (asset_holdings p).

(** Rates between 0 and 1 and no negative configured price. *)
Definition sane_parameters (self : MockExchangeAdapter) : Prop :=
  0 <= commission_rate self <= 1 ∧
  0 <= slippage_factor self <= 1 ∧
  map_Forall (λ _ p, 0 <= p) (current_sim_prices self).

(** Every entry of the open-orders index is filed under its own id and
    is OPEN. *)
Definition index_ok (self : MockExchangeAdapter) : Prop :=
  map_Forall (λ k o, order_id o = k ∧ status o = OPEN) (open_orders self).

(** The agent's portfolio view is the ledger of its mock adapter. *)
Definition in_sync (agent : TradingAgent MockExchangeAdapter) : Prop :=
  ∃ a, exchange_adapter agent = Some a ∧ agent_portfolio agent = portfolio a.

(** The character [c] does not occur in [s]. *)
Fixpoint free_of (c : ascii) (s : string) : bool :=
  match s with
  | EmptyString => true
  | String x rest => negb (Ascii.eqb x c) && free_of c rest
  end.

(** A mock adapter with one resting LIMIT BUY, used in examples. *)
Definition resting_adapter : MockExchangeAdapter :=
  snd (create_order scenario_adapter (limit_order "BTC/USDT" BUY 0.1 40000) draw_mid).

(** The scenario adapter holding 1 BTC next to its cash. *)
Definition funded_adapter : MockExchangeAdapter :=
  set_portfolio scenario_adapter
    {| cash_balance := {[ "USDT" := 10000 ]}; asset_holdings := {[ "BTC" := 1 ]} |}.

(** Classes of adapter calls. *)
Definition is_create_order (c : AdapterCall) : Prop :=
  match c with CallCreateOrder _ _ => True | _ => False end.

Definition updates_price_of (sym : string) (c : AdapterCall) : Prop :=
  match c with CallUpdatePrice s _ => s = sym | _ => False end.


(** The [is_initialized] flag of a strategy. *)
Definition is_initialized (s : Strategy) : bool :=
  match s with
  | MovingAverageCrossover m => mac_is_initialized m
  | SentimentLLM l => sl_is_initialized l
  end.
(** ** Basic facts *)

Lemma Qltb_true (a b : Q) : Qltb a b = true ↔ a < b.
Proof.
  unfold Qltb. rewrite negb_true_iff.
  destruct (Qle_bool b a) eqn:E.
  - apply Qle_bool_iff in E. split; [discriminate | intros H; lra].
  - split; [intros _ | reflexivity].
    destruct (Qlt_le_dec a b) as [H | H]; [exact H |].
    apply Qle_bool_iff in H. congruence.
Qed.

Lemma Qltb_false (a b : Q) : Qltb a b = false ↔ ¬ (a < b).
Proof. rewrite <- Qltb_true. destruct (Qltb a b); split; congruence. Qed.

Lemma get0_insert_eq (m : gmap string Q) (k : string) (v : Q) :
  get0 (<[k := v]> m) k = v.
Proof. unfold get0. by rewrite lookup_insert_eq. Qed.

Lemma get0_insert_ne (m : gmap string Q) (k k' : string) (v : Q) :
  k ≠ k' → get0 (<[k := v]> m) k' = get0 m k'.
Proof. intros H. unfold get0. by rewrite lookup_insert_ne. Qed.

Lemma create_order_rejects (self : MockExchangeAdapter) (req : OrderRequest)
  (d : Draw) :
  fill_probability self < r_fill d →
  create_order self req d = (Returned (rejected_order req d), self).
Proof.
  intros H. unfold create_order.
  apply Qltb_true in H. by rewrite H.
Qed.

Lemma create_order_settles (self : MockExchangeAdapter) (req : OrderRequest)
  (d : Draw) (base_currency quote_currency : string) (execution_price : Q) :
  reaches_settlement self req d base_currency quote_currency execution_price →
  create_order self req d =
  settlement self req base_currency quote_currency execution_price
    (_get_sim_price self (symbol req) (r_noise d)) d.
Proof.
  intros (Hroll & Hsym & Hty). unfold create_order.
  apply Qltb_false in Hroll. rewrite Hroll, Hsym.
  destruct (order_type req).
  - by rewrite Hty.
  - destruct Hty as (Hp & Hb & Hs). rewrite Hp.
    destruct (bool_decide (action req = BUY) && Qltb execution_price _) eqn:E1.
    { apply andb_true_iff in E1 as [E1 E2].
      apply bool_decide_eq_true in E1. apply Qltb_true in E2. tauto. }
    destruct (bool_decide (action req = SELL) && Qltb _ execution_price) eqn:E2.
    { apply andb_true_iff in E2 as [E2 E3].
      apply bool_decide_eq_true in E2. apply Qltb_true in E3. tauto. }
    reflexivity.
Qed.

Lemma buy_legs_cash (p : AgentPortfolio) (b q : string) (n c k : Q) :
  get0 (cash_balance (buy_legs p b q n c k)) q
  == get0 (cash_balance p) q - (c + k).
Proof.
  unfold buy_legs, update_asset, update_cash. simpl.
  rewrite !get0_insert_eq. ring.
Qed.

Lemma buy_legs_asset (p : AgentPortfolio) (b q : string) (n c k : Q) :
  get0 (asset_holdings (buy_legs p b q n c k)) b
  = get0 (asset_holdings p) b + n.
Proof.
  unfold buy_legs, update_asset, update_cash. simpl.
  by rewrite get0_insert_eq.
Qed.

Lemma buy_legs_cash_other (p : AgentPortfolio) (b q : string) (n c k : Q)
  (x : string) :
  x ≠ q → cash_balance (buy_legs p b q n c k) !! x = cash_balance p !! x.
Proof.
  intros H. unfold buy_legs, update_asset, update_cash. simpl.
  by rewrite !lookup_insert_ne.
Qed.

Lemma buy_legs_asset_other (p : AgentPortfolio) (b q : string) (n c k : Q)
  (x : string) :
  x ≠ b → asset_holdings (buy_legs p b q n c k) !! x = asset_holdings p !! x.
Proof.
  intros H. unfold buy_legs, update_asset, update_cash. simpl.
  by rewrite lookup_insert_ne.
Qed.

Lemma sell_legs_cash (p : AgentPortfolio) (b q : string) (n c k : Q) :
  get0 (cash_balance (sell_legs p b q n c k)) q
  == get0 (cash_balance p) q + (c - k).
Proof.
  unfold sell_legs, update_asset, update_cash. simpl.
  rewrite !get0_insert_eq. ring.
Qed.

Lemma sell_legs_asset (p : AgentPortfolio) (b q : string) (n c k : Q) :
  get0 (asset_holdings (sell_legs p b q n c k)) b
  == get0 (asset_holdings p) b - n.
Proof.
  unfold sell_legs, update_asset, update_cash. simpl.
  rewrite get0_insert_eq. ring.
Qed.

Lemma settlement_buy_short (self : MockExchangeAdapter) (req : OrderRequest)
  (b q : string) (ep sp : Q) (d : Draw) :
  action req = BUY →
  get0 (cash_balance (portfolio self)) q
  < quantity req * ep
    + (if negb (String.eqb q b) then quantity req * ep * commission_rate self else 0) →
  settlement self req b q ep sp d = (Raised InsufficientFundsError, self).
Proof.
  intros Ha Hlt. unfold settlement. rewrite Ha.
  apply Qltb_true in Hlt. by rewrite Hlt.
Qed.

Lemma settlement_buy_funded (self : MockExchangeAdapter) (req : OrderRequest)
  (b q : string) (ep sp : Q) (d : Draw) :
  action req = BUY →
  ¬ (get0 (cash_balance (portfolio self)) q
     < quantity req * ep
       + (if negb (String.eqb q b) then quantity req * ep * commission_rate self else 0)) →
  settlement self req b q ep sp d =
  let o := filled_order req q ep (quantity req * ep * commission_rate self) sp d in
  (Returned o,
   set_trade_history
     (set_portfolio self
        (buy_legs (portfolio self) b q (quantity req) (quantity req * ep)
           (quantity req * ep * commission_rate self)))
     (trade_history self ++ [o])).
Proof.
  intros Ha Hge. unfold settlement. rewrite Ha.
  apply Qltb_false in Hge. by rewrite Hge.
Qed.

Lemma settlement_sell_short (self : MockExchangeAdapter) (req : OrderRequest)
  (b q : string) (ep sp : Q) (d : Draw) :
  action req = SELL →
  get0 (asset_holdings (portfolio self)) b < quantity req →
  settlement self req b q ep sp d = (Raised InsufficientFundsError, self).
Proof.
  intros Ha Hlt. unfold settlement. rewrite Ha.
  apply Qltb_true in Hlt. by rewrite Hlt.
Qed.

Lemma settlement_sell_funded (self : MockExchangeAdapter) (req : OrderRequest)
  (b q : string) (ep sp : Q) (d : Draw) :
  action req = SELL →
  ¬ (get0 (asset_holdings (portfolio self)) b < quantity req) →
  settlement self req b q ep sp d =
  let o := filled_order req q ep (quantity req * ep * commission_rate self) sp d in
  (Returned o,
   set_trade_history
     (set_portfolio self
        (sell_legs (portfolio self) b q (quantity req) (quantity req * ep)
           (quantity req * ep * commission_rate self)))
     (trade_history self ++ [o])).
Proof.
  intros Ha Hge. unfold settlement. rewrite Ha.
  apply Qltb_false in Hge. by rewrite Hge.
Qed.

(** ** Settlement of BUY orders *)

(** C1 (as amended).  A BUY request that reaches settlement is checked
    against [required_quote], which is cost + commission when quote and
    base currency differ and the bare cost when they coincide.  Below that
    amount [create_order] raises [InsufficientFundsError] and returns the
    adapter unchanged; otherwise the order is FILLED, the quote balance is
    debited by cost + commission and the base asset is credited by the
    quantity. *)
Theorem create_order_buy_funds_check
  (self : MockExchangeAdapter) (req : OrderRequest) (d : Draw)
  (base_currency quote_currency : string) (execution_price : Q) :
  reaches_settlement self req d base_currency quote_currency execution_price →
  action req = BUY →
  let cost := quantity req * execution_price in
  let commission := cost * commission_rate self in
  let required_quote :=
    cost + (if String.eqb quote_currency base_currency then 0 else commission) in
  let cash := get0 (cash_balance (portfolio self)) quote_currency in
  (cash < required_quote →
   create_order self req d = (Raised InsufficientFundsError, self)) ∧
  (¬ (cash < required_quote) →
   ∃ o self',
     create_order self req d = (Returned o, self') ∧
     status o = FILLED ∧
     get0 (cash_balance (portfolio self')) quote_currency
       == cash - (cost + commission) ∧
     get0 (asset_holdings (portfolio self')) base_currency
       == get0 (asset_holdings (portfolio self)) base_currency + quantity req).
Proof.
  intros Hreach Hbuy cost commission required_quote cash.
  rewrite (create_order_settles _ _ _ _ _ _ Hreach).
  assert (Hreq : required_quote =
            quantity req * execution_price
            + (if negb (String.eqb quote_currency base_currency)
               then quantity req * execution_price * commission_rate self
               else 0)).
  { unfold required_quote, commission, cost.
    by destruct (String.eqb quote_currency base_currency). }
  split; intros Hcash.
  - apply settlement_buy_short; [exact Hbuy |].
    rewrite <- Hreq. exact Hcash.
  - rewrite settlement_buy_funded; [| exact Hbuy | by rewrite <- Hreq].
    eexists _, _. split; [reflexivity |]. split; [reflexivity |].
    cbn [portfolio set_trade_history set_portfolio]. split.
    + apply buy_legs_cash.
    + rewrite buy_legs_asset. reflexivity.
Qed.

Lemma create_order_buy_funds_check_witness :
  ∃ o self',
    create_order scenario_adapter scenario_request draw_mid = (Returned o, self') ∧
    status o = FILLED ∧
    get0 (cash_balance (portfolio self')) "USDT"
      == 10000 - (0.1 * (50000 * (1 + (0.5 - 0.5) * 0.0005) * (1 + 0.001))
                  + 0.1 * (50000 * (1 + (0.5 - 0.5) * 0.0005) * (1 + 0.001)) * 0.001) ∧
    get0 (asset_holdings (portfolio self')) "BTC" == 0 + 0.1.
Proof.
  refine (proj2 (create_order_buy_funds_check scenario_adapter scenario_request
                   draw_mid "BTC" "USDT"
                   (50000 * (1 + (0.5 - 0.5) * 0.0005) * (1 + 0.001)) _ _) _).
  - split; [vm_compute; discriminate |]. split; reflexivity.
  - reflexivity.
  - vm_compute. discriminate.
Defined.

(** C1, counterexample.  On the pair USDT/USDT the balance 100.1 is below
    cost + commission = 100.1 + 0.1001, yet the order is FILLED and the
    balance ends at -0.1001. *)
Lemma create_order_buy_same_currency_counterexample :
  let req := market_order "USDT/USDT" BUY 1 in
  let cost := 1 * (100 * (1 + (0.5 - 0.5) * 0.0005) * (1 + 0.001)) in
  let commission := cost * 0.001 in
  reaches_settlement same_currency_adapter req draw_mid "USDT" "USDT"
    (100 * (1 + (0.5 - 0.5) * 0.0005) * (1 + 0.001)) ∧
  get0 (cash_balance (portfolio same_currency_adapter)) "USDT" < cost + commission ∧
  ∃ o self',
    create_order same_currency_adapter req draw_mid = (Returned o, self') ∧
    status o = FILLED ∧
    get0 (cash_balance (portfolio self')) "USDT" == - 0.1001.
Proof.
  cbv zeta. split; [| split].
  - split; [vm_compute; discriminate |]. split; reflexivity.
  - vm_compute. reflexivity.
  - eexists _, _. split; [vm_compute; reflexivity |].
    split; [reflexivity |]. vm_compute. reflexivity.
Qed.

(** ** The non-fill roll *)

(** C9 (as amended).  With [fill_probability = 0.0] every draw r > 0 is
    rejected and the adapter (portfolio, history, index) is unchanged. *)
Theorem create_order_zero_fill_probability
  (self : MockExchangeAdapter) (req : OrderRequest) (d : Draw) :
  fill_probability self == 0 →
  0 < r_fill d →
  ∃ o,
    create_order self req d = (Returned o, self) ∧
    status o = REJECTED.
Proof.
  intros Hfp Hr. exists (rejected_order req d). split; [| reflexivity].
  apply create_order_rejects. rewrite Hfp. exact Hr.
Qed.

Lemma create_order_zero_fill_probability_witness :
  ∃ o,
    create_order (with_fill_probability scenario_adapter 0) scenario_request draw_mid
    = (Returned o, with_fill_probability scenario_adapter 0) ∧
    status o = REJECTED.
Proof.
  apply (create_order_zero_fill_probability
           (with_fill_probability scenario_adapter 0) scenario_request draw_mid).
  - reflexivity.
  - reflexivity.
Defined.

(** C9, counterexample.  The draw r = 0.0 is not greater than
    [fill_probability = 0.0]: the order is FILLED and the balance moves. *)
Lemma create_order_zero_roll_counterexample :
  0 <= r_fill draw_zero < 1 ∧
  ∃ o self',
    create_order (with_fill_probability scenario_adapter 0) scenario_request draw_zero
    = (Returned o, self') ∧
    status o = FILLED ∧
    get0 (cash_balance (portfolio self')) "USDT" == 4989.995 ∧
    portfolio self' ≠ portfolio (with_fill_probability scenario_adapter 0).
Proof.
  split; [split; vm_compute; [discriminate | reflexivity] |].
  eexists _, _. split; [vm_compute; reflexivity |].
  split; [reflexivity |]. split; [vm_compute; reflexivity |].
  intros H. apply (f_equal (λ p, asset_holdings p !! "BTC")) in H.
  vm_compute in H. discriminate.
Qed.

(** ** The concrete MARKET BUY scenario *)

Lemma scenario_sim_price (noise : Q) :
  _get_sim_price scenario_adapter "BTC/USDT" noise
  = 50000 * (1 + (noise - 0.5) * 0.0005).
Proof.
  unfold _get_sim_price. cbn [current_sim_prices scenario_adapter].
  by rewrite lookup_singleton_eq.
Qed.

(** C2 (as amended).  In the scenario of the specification the MARKET BUY
    of 0.1 BTC/USDT is FILLED for every pair of rolls; its price is the
    simulated price times (1 + slippage), where the simulated price is the
    reference 50000 times (1 + (r - 0.5) * 0.0005) for the noise roll r.
    The balance ends at 10000 - 0.1 * price * 1.001 USDT and 0.1 BTC; the
    figures 50050 and 4989.995 are those of the noise roll r = 0.5. *)
Theorem scenario_market_buy (d : Draw) :
  r_fill d <= 1 →
  0 <= r_noise d < 1 →
  let sim_price := 50000 * (1 + (r_noise d - 0.5) * 0.0005) in
  ∃ o self',
    create_order scenario_adapter scenario_request d = (Returned o, self') ∧
    status o = FILLED ∧
    eo_price o = sim_price * (1 + 0.001) ∧
    get0 (cash_balance (portfolio self')) "USDT"
      == 10000 - 0.1 * (sim_price * (1 + 0.001)) * (1 + 0.001) ∧
    get0 (asset_holdings (portfolio self')) "BTC" == 0.1 ∧
    (r_noise d == 0.5 →
     eo_price o == 50050 ∧
     get0 (cash_balance (portfolio self')) "USDT" == 4989.995).
Proof.
  intros Hfill [Hn0 Hn1] sim_price.
  assert (Hreach : reaches_settlement scenario_adapter scenario_request d
                     "BTC" "USDT" (sim_price * (1 + 0.001))).
  { split; [cbn [fill_probability scenario_adapter]; lra |].
    split; [reflexivity |].
    cbn [order_type action scenario_request market_order symbol].
    by rewrite scenario_sim_price. }
  assert (Hfunds : ¬ (get0 (cash_balance (portfolio scenario_adapter)) "USDT"
                      < 0.1 * (sim_price * (1 + 0.001))
                        + (if negb (String.eqb "USDT" "BTC")
                           then 0.1 * (sim_price * (1 + 0.001)) * 0.001 else 0))).
  { cbn [negb String.eqb Ascii.eqb Bool.eqb].
    change (get0 (cash_balance (portfolio scenario_adapter)) "USDT") with 10000.
    unfold sim_price. lra. }
  rewrite (create_order_settles _ _ _ _ _ _ Hreach).
  rewrite settlement_buy_funded; [| reflexivity | exact Hfunds].
  eexists _, _. split; [reflexivity |]. split; [reflexivity |].
  split; [reflexivity |].
  cbn [portfolio set_trade_history set_portfolio].
  assert (Hcash : get0 (cash_balance
                          (buy_legs (portfolio scenario_adapter) "BTC" "USDT" 0.1
                             (0.1 * (sim_price * (1 + 0.001)))
                             (0.1 * (sim_price * (1 + 0.001)) * 0.001))) "USDT"
                  == 10000 - 0.1 * (sim_price * (1 + 0.001)) * (1 + 0.001)).
  { rewrite buy_legs_cash.
    change (get0 (cash_balance (portfolio scenario_adapter)) "USDT") with 10000.
    ring. }
  split; [exact Hcash |]. split.
  - rewrite buy_legs_asset.
    vm_compute. reflexivity.
  - intros Hmid. cbn [eo_price filled_order].
    cbn [quantity scenario_request market_order commission_rate scenario_adapter] in *.
    split.
    + unfold sim_price. rewrite Hmid. reflexivity.
    + rewrite Hcash. unfold sim_price. rewrite Hmid. reflexivity.
Qed.

Lemma scenario_market_buy_witness :
  ∃ o self',
    create_order scenario_adapter scenario_request draw_mid = (Returned o, self') ∧
    status o = FILLED ∧
    eo_price o = 50000 * (1 + (0.5 - 0.5) * 0.0005) * (1 + 0.001) ∧
    get0 (cash_balance (portfolio self')) "USDT"
      == 10000 - 0.1 * (50000 * (1 + (0.5 - 0.5) * 0.0005) * (1 + 0.001)) * (1 + 0.001) ∧
    get0 (asset_holdings (portfolio self')) "BTC" == 0.1 ∧
    (0.5 == 0.5 →
     eo_price o == 50050 ∧
     get0 (cash_balance (portfolio self')) "USDT" == 4989.995).
Proof.
  apply (scenario_market_buy draw_mid).
  - vm_compute. discriminate.
  - split; vm_compute; [discriminate | reflexivity].
Defined.

(** C2, counterexample.  With the noise roll r = 0.0 the same order is
    FILLED at 50037.4875, not 50050, and the balance is not 4989.995. *)
Lemma scenario_market_buy_counterexample :
  ∃ o self',
    create_order scenario_adapter scenario_request draw_low = (Returned o, self') ∧
    status o = FILLED ∧
    eo_price o == 50037.4875 ∧
    ¬ (eo_price o == 50050) ∧
    ¬ (get0 (cash_balance (portfolio self')) "USDT" == 4989.995).
Proof.
  eexists _, _. split; [vm_compute; reflexivity |].
  split; [reflexivity |]. split; [vm_compute; reflexivity |].
  split; vm_compute; discriminate.
Qed.

(** ** Where created orders are recorded *)

Ltac case_branch H :=
  match type of H with
  | context [if ?b then _ else _] => destruct b eqn:?
  | context [match ?x with _ => _ end] => destruct x eqn:?
  end.

Lemma settlement_records (self : MockExchangeAdapter) (req : OrderRequest)
  (b q : string) (ep sp : Q) (d : Draw) (o : ExecutedOrder)
  (self' : MockExchangeAdapter) :
  settlement self req b q ep sp d = (Returned o, self') →
  status o = FILLED ∧
  trade_history self' = trade_history self ++ [o] ∧
  open_orders self' = open_orders self ∧
  current_sim_prices self' = current_sim_prices self.
Proof.
  unfold settlement. intros H.
  repeat case_branch H; inversion H; subst; done.
Qed.

(** C3 (as amended).  An order returned by [create_order] with status
    FILLED has been appended to [trade_history]; one returned with status
    OPEN sits in [open_orders] under its id; one returned with status
    REJECTED is recorded nowhere: the adapter is returned unchanged.  No
    order is returned as CANCELED. *)
Theorem create_order_records (self : MockExchangeAdapter) (req : OrderRequest)
  (d : Draw) (o : ExecutedOrder) (self' : MockExchangeAdapter) :
  create_order self req d = (Returned o, self') →
  match status o with
  | FILLED =>
      trade_history self' = trade_history self ++ [o] ∧
      open_orders self' = open_orders self
  | OPEN =>
      open_orders self' !! order_id o = Some o ∧
      trade_history self' = trade_history self
  | REJECTED => self' = self
  | CANCELED => False
  end.
Proof.
  unfold create_order. intros H.
  repeat case_branch H;
    try (apply settlement_records in H as (-> & ? & ? & ?); done);
    inversion H; subst; cbn [status rejected_order pending_order];
    try done;
    cbn [open_orders set_open_orders trade_history];
    by rewrite lookup_insert_eq.
Qed.

Lemma create_order_records_witness :
  ∃ o self',
    create_order scenario_adapter scenario_request draw_mid = (Returned o, self') ∧
    trade_history self' = trade_history scenario_adapter ++ [o] ∧
    open_orders self' = open_orders scenario_adapter.
Proof.
  eexists _, _. split; [vm_compute; reflexivity |].
  exact (create_order_records scenario_adapter scenario_request draw_mid _ _
           eq_refl).
Defined.

(** C3, counterexample.  With fill probability 0.5 and the roll 0.9 the
    order comes back REJECTED, and neither the history nor the index of the
    adapter holds it. *)
Lemma create_order_rejected_unrecorded_counterexample :
  ∃ o self',
    create_order flaky_adapter scenario_request draw_high = (Returned o, self') ∧
    status o = REJECTED ∧
    (o ∉ trade_history self') ∧
    open_orders self' !! order_id o = None.
Proof.
  eexists _, _. split; [vm_compute; reflexivity |].
  split; [reflexivity |]. split.
  - cbn [flaky_adapter with_fill_probability trade_history scenario_adapter].
    apply not_elem_of_nil.
  - reflexivity.
Qed.

(** ** Symbols without a configured price *)



(** ** Resting LIMIT orders *)

Lemma settlement_index (self : MockExchangeAdapter) (req : OrderRequest)
  (b q : string) (ep sp : Q) (d : Draw) :
  open_orders (snd (settlement self req b q ep sp d)) = open_orders self.
Proof.
  unfold settlement.
  destruct (action req); [destruct (Qltb _ _) | destruct (Qltb _ _) |];
    reflexivity.
Qed.

Lemma create_order_index (self : MockExchangeAdapter) (req : OrderRequest)
  (d : Draw) :
  open_orders (snd (create_order self req d)) = open_orders self ∨
  ∃ o, order_id o = order_id_or req "mock_open_" d ∧
       status o = OPEN ∧
       open_orders (snd (create_order self req d)) = <[order_id o := o]> (open_orders self).
Proof.
  unfold create_order.
  destruct (Qltb _ _); [by left |].
  destruct (unpack2 _) as [[b q] |]; [| by left].
  destruct (order_type req); [left; apply settlement_index |].
  destruct (price req) as [limit |]; [| by left].
  destruct (_ && _); [right; by exists (pending_order req limit d) |].
  destruct (_ && _); [right; by exists (pending_order req limit d) |].
  left. apply settlement_index.
Qed.

Lemma call_keeps_entry (self : MockExchangeAdapter) (c : AdapterCall)
  (oid : string) :
  ¬ writes_entry oid c →
  open_orders (call self c) !! oid = open_orders self !! oid.
Proof.
  destruct c as [req d | x | sym p | |]; cbn [writes_entry call]; intros Hw.
  - destruct (create_order_index self req d) as [-> | (o & Hid & _ & ->)];
      [reflexivity |].
    rewrite lookup_insert_ne; [reflexivity | congruence].
  - unfold cancel_order. destruct (open_orders self !! x); [| reflexivity].
    cbn [snd open_orders set_trade_history set_open_orders].
    by rewrite lookup_delete_ne.
  - reflexivity.
  - reflexivity.
  - tauto.
Qed.

Lemma run_keeps_entry (cs : list AdapterCall) (self : MockExchangeAdapter)
  (oid : string) :
  Forall (λ c, ¬ writes_entry oid c) cs →
  open_orders (run self cs) !! oid = open_orders self !! oid.
Proof.
  revert self. induction cs as [| c cs IH]; intros self Hcs.
  - reflexivity.
  - apply Forall_cons in Hcs as [Hc Hcs].
    change (run self (c :: cs)) with (run (call self c) cs).
    rewrite IH by exact Hcs. by apply call_keeps_entry.
Qed.

(** C5 (as amended).  A LIMIT BUY that passes the non-fill roll and whose
    limit is strictly below the simulated price of the call (the
    configured price with its noise factor) is returned OPEN: no funds
    move, nothing is appended to the history, and the order sits in the
    open-orders index.  It is still there, still OPEN, after any later
    calls that do not cancel it, shut the adapter down or rest another
    order under the same id; later price updates never fill it. *)
Theorem limit_buy_below_reference_rests
  (self : MockExchangeAdapter) (req : OrderRequest) (d : Draw)
  (base_currency quote_currency : string) (limit : Q) :
  ¬ (fill_probability self < r_fill d) →
  unpack2 (split slash (symbol req)) = Some (base_currency, quote_currency) →
  order_type req = LIMIT →
  action req = BUY →
  price req = Some limit →
  limit < _get_sim_price self (symbol req) (r_noise d) →
  ∃ o self',
    create_order self req d = (Returned o, self') ∧
    status o = OPEN ∧
    portfolio self' = portfolio self ∧
    trade_history self' = trade_history self ∧
    open_orders self' !! order_id o = Some o ∧
    ∀ cs : list AdapterCall,
      Forall (λ c, ¬ writes_entry (order_id o) c) cs →
      open_orders (run self' cs) !! order_id o = Some o.
Proof.
  intros Hroll Hsym Hty Hbuy Hp Hlt.
  exists (pending_order req limit d).
  exists (set_open_orders self
            (<[order_id (pending_order req limit d) := pending_order req limit d]>
               (open_orders self))).
  assert (Hidx : open_orders
                   (set_open_orders self
                      (<[order_id (pending_order req limit d) := pending_order req limit d]>
                         (open_orders self)))
                 !! order_id (pending_order req limit d)
                 = Some (pending_order req limit d)).
  { cbn [open_orders set_open_orders]. apply lookup_insert_eq. }
  split.
  { unfold create_order.
    apply Qltb_false in Hroll. apply Qltb_true in Hlt.
    rewrite Hroll, Hsym, Hty, Hp, Hbuy, Hlt.
    reflexivity. }
  split; [reflexivity |]. split; [reflexivity |]. split; [reflexivity |].
  split; [exact Hidx |].
  intros cs Hcs.
  rewrite run_keeps_entry by exact Hcs. exact Hidx.
Qed.

Lemma limit_buy_below_reference_rests_witness :
  ∃ o self',
    create_order scenario_adapter (limit_order "BTC/USDT" BUY 0.1 40000) draw_mid
    = (Returned o, self') ∧
    status o = OPEN ∧
    portfolio self' = portfolio scenario_adapter ∧
    trade_history self' = trade_history scenario_adapter ∧
    open_orders self' !! order_id o = Some o ∧
    ∀ cs : list AdapterCall,
      Forall (λ c, ¬ writes_entry (order_id o) c) cs →
      open_orders (run self' cs) !! order_id o = Some o.
Proof.
  apply (limit_buy_below_reference_rests scenario_adapter
           (limit_order "BTC/USDT" BUY 0.1 40000) draw_mid "BTC" "USDT" 40000).
  - vm_compute. discriminate.
  - reflexivity.
  - reflexivity.
  - reflexivity.
  - reflexivity.
  - vm_compute. reflexivity.
Defined.

(** C5, counterexample.  A LIMIT BUY at 40000, below the reference 50000,
    submitted to an adapter with fill probability 0.5 and rolled 0.9 comes
    back REJECTED and is not in the open-orders index.  And a LIMIT BUY at
    49999, still strictly below the configured reference 50000, meets a
    simulated price of 49987.5 when the noise roll is 0.0: it is FILLED at
    the limit and the balance is debited. *)
Lemma limit_buy_below_reference_counterexample :
  (40000 < _get_sim_price flaky_adapter "BTC/USDT" (r_noise draw_high) ∧
   ∃ o self',
     create_order flaky_adapter (limit_order "BTC/USDT" BUY 0.1 40000) draw_high
     = (Returned o, self') ∧
     status o = REJECTED ∧
     open_orders self' !! order_id o = None) ∧
  (get_current_price scenario_adapter "BTC/USDT" = Some 50000 ∧
   49999 < 50000 ∧
   _get_sim_price scenario_adapter "BTC/USDT" (r_noise draw_low) == 49987.5 ∧
   ∃ o self',
     create_order scenario_adapter (limit_order "BTC/USDT" BUY 0.1 49999) draw_low
     = (Returned o, self') ∧
     status o = FILLED ∧
     eo_price o = 49999 ∧
     get0 (cash_balance (portfolio self')) "USDT" < 10000 ∧
     open_orders self' !! order_id o = None).
Proof.
  split.
  - split; [vm_compute; reflexivity |].
    eexists _, _. split; [vm_compute; reflexivity |].
    split; reflexivity.
  - split; [reflexivity |]. split; [reflexivity |].
    split; [vm_compute; reflexivity |].
    eexists _, _. split; [vm_compute; reflexivity |].
    split; [reflexivity |]. split; [reflexivity |].
    split; [vm_compute; reflexivity | reflexivity].
Qed.

(** The resting order of the scenario is still OPEN after the reference
    price has been moved below its limit and another order has traded. *)
Example resting_order_is_never_matched :
  ∃ o self',
    create_order scenario_adapter (limit_order "BTC/USDT" BUY 0.1 40000) draw_mid
    = (Returned o, self') ∧
    let later :=
      run self' [CallUpdatePrice "BTC/USDT" 30000;
                 CallGetAccountBalance;
                 CallCreateOrder scenario_request draw_low] in
    get_current_price later "BTC/USDT" = Some 30000 ∧
    open_orders later !! order_id o = Some o ∧
    status o = OPEN.
Proof.
  eexists _, _. split; [vm_compute; reflexivity |].
  cbv zeta. split; [reflexivity |]. split; [vm_compute; reflexivity | reflexivity].
Qed.

(** ** Round trip: MARKET BUY then MARKET SELL *)










(** ** Position flags of the strategies *)








(** ** Failures while processing signals *)

(** An exception leaves an iteration of [_process_signals] on two paths
    only: the symbol does not unpack into two parts (line 110), or a BUY
    sized by percentage with no usable price on the signal compares the
    fetched price with 0 (line 149).  Whatever [create_order] raises is
    caught inside [place]. *)
Lemma process_signal_raises {A : Type} `{BaseExchangeAdapter A}
  (agent agent' : TradingAgent A) (signal : TradingSignal) (d : Draw)
  (e : Exn) :
  process_signal agent signal d = (Raised e, agent') →
  (e = ValueError ∧ unpack2 (split slash (sig_symbol signal)) = None) ∨
  (e = TypeError ∧ sig_action signal = BUY ∧
   truthy_float (quantity_absolute signal) = false ∧
   truthy_float (quantity_percentage signal) = true ∧
   truthy_float (sig_price signal) = false).
Proof.
  unfold process_signal. intros Hp.
  destruct (sig_action signal) eqn:Ha; [| | discriminate Hp].
  - destruct (unpack2 _) as [[b q] |]; [| left; by inversion Hp].
    destruct (exchange_adapter agent) as [a |]; [| discriminate Hp].
    destruct (adapter_get_account_balance a) as [[pf | e'] a1]; [| discriminate Hp].
    destruct (buy_quantity _ _ _ _) as [r | [[qty tp] | e']] eqn:Hq;
      [discriminate Hp | by destruct (place _ _ _ _ _ _) |].
    inversion Hp; subst. right. revert Hq. unfold buy_quantity.
    destruct (truthy_float (quantity_absolute signal)); [discriminate |].
    destruct (truthy_float (quantity_percentage signal)); [| discriminate].
    destruct (sig_price signal) as [p |]; cbn [of_optional truthy truthy_float].
    + destruct (negb (Qeq_bool p 0)) eqn:Hz; cbn [negb].
      * destruct (Qltb 0 p); discriminate.
      * intros Hq. repeat case_branch Hq; by inversion Hq.
    + intros Hq. repeat case_branch Hq; by inversion Hq.
  - destruct (unpack2 _) as [[b q] |]; [| left; by inversion Hp].
    destruct (exchange_adapter agent) as [a |]; [| discriminate Hp].
    destruct (adapter_get_account_balance a) as [[pf | e'] a1]; [| discriminate Hp].
    destruct (sell_quantity _ _); [discriminate Hp |].
    by destruct (place _ _ _ _ _ _).
Qed.

(** C4, the code at the failing input.  A BUY signal sized by percentage
    that carries no price makes line 135 bind the coroutine object of the
    un-awaited [get_current_price]; it is truthy, so nothing is skipped,
    and [target_price > 0] raises [TypeError] outside every [try]:
    [_process_signals] ends there and the signals after it are never
    looked at. *)
Theorem percentage_buy_without_price_aborts {A : Type} `{BaseExchangeAdapter A}
  (agent : TradingAgent A) (a a1 : A) (signal : TradingSignal) (d : Draw)
  (rest : list (TradingSignal * Draw)) (base_currency quote_currency : string)
  (pf : AgentPortfolio) :
  exchange_adapter agent = Some a →
  sig_action signal = BUY →
  truthy_float (quantity_absolute signal) = false →
  truthy_float (quantity_percentage signal) = true →
  truthy_float (sig_price signal) = false →
  unpack2 (split slash (sig_symbol signal)) = Some (base_currency, quote_currency) →
  adapter_get_account_balance a = (Returned pf, a1) →
  get_current_price_unawaited a1 (sig_symbol signal) = PyCoroutine →
  _process_signals agent ((signal, d) :: rest)
  = (Raised TypeError, set_adapter_portfolio agent a1 pf).
Proof.
  intros Hadapter Hbuy Habs Hpct Hprice Hsym Hbal Hco.
  unfold _process_signals. rewrite Hadapter.
  cbn [process_loop]. unfold process_signal.
  rewrite Hbuy, Hsym, Hadapter, Hbal. unfold buy_quantity.
  rewrite Habs, Hpct.
  assert (Hfalsy : truthy (of_optional (sig_price signal)) = false).
  { destruct (sig_price signal); exact Hprice. }
  rewrite Hfalsy. cbn [negb]. rewrite Hco. reflexivity.
Qed.

Lemma percentage_buy_without_price_aborts_witness :
  _process_signals (agent_with scenario_adapter [SentimentLLM sentiment_strategy])
    [(percentage_buy, draw_mid); (absolute_buy, draw_mid)]
  = (Raised TypeError,
     set_adapter_portfolio
       (agent_with scenario_adapter [SentimentLLM sentiment_strategy])
       scenario_adapter (portfolio scenario_adapter)).
Proof.
  apply (percentage_buy_without_price_aborts
           (agent_with scenario_adapter [SentimentLLM sentiment_strategy])
           scenario_adapter scenario_adapter percentage_buy draw_mid
           [(absolute_buy, draw_mid)] "BTC" "USDT" (portfolio scenario_adapter));
    reflexivity.
Defined.

(** The signal the sentiment strategy emits on good news when no ticker
    is available is such a signal, and the signal queued behind it, which
    alone would have been FILLED, is lost. *)
Example sentiment_buy_aborts_the_cycle :
  ∃ s1 s2 l',
    sl_generate_signals sentiment_strategy good_news (portfolio scenario_adapter)
    = ([s1; s2], l') ∧
    fst (_process_signals (agent_with scenario_adapter [SentimentLLM l'])
           [(s1, draw_mid); (absolute_buy, draw_mid)]) = Raised TypeError ∧
    ∃ o,
      fst (_process_signals (agent_with scenario_adapter [SentimentLLM l'])
             [(absolute_buy, draw_mid)]) = Returned [Placed o] ∧
      status o = FILLED.
Proof.
  eexists _, _, _. split; [vm_compute; reflexivity |].
  split; [vm_compute; reflexivity |].
  eexists. split; [vm_compute; reflexivity | reflexivity].
Qed.

(** An order the balance does not cover is caught and the next signal is
    processed. *)
Example insufficient_funds_is_caught :
  ∃ o,
    fst (_process_signals (agent_with scenario_adapter [])
           [(oversized_buy, draw_mid); (absolute_buy, draw_mid)])
    = Returned [PlacementFailed InsufficientFundsError; Placed o] ∧
    status o = FILLED.
Proof. eexists. split; [vm_compute; reflexivity | reflexivity]. Qed.

(** ** Startup *)

Lemma main_loop_first_cycle {A : Type} `{BaseExchangeAdapter A}
  (agent : TradingAgent A) (all_signals : list (TradingSignal * Draw))
  (later : list (list (TradingSignal * Draw))) :
  ∃ evs,
    fst (main_loop agent (all_signals :: later))
    = match fst (_run_cycle agent all_signals) with
      | Returned rs => CycleDone rs
      | Raised e => CriticalError e
      end :: evs.
Proof.
  cbn [main_loop].
  destruct (_run_cycle agent all_signals) as [[rs | e] agent1].
  - destruct (main_loop agent1 later) as [evs agent2]. by exists evs.
  - by exists [].
Qed.

(** C7 (as amended).  When the adapter's [initialize] raises,
    [initialize_components] catches the exception, the strategies are
    initialized all the same, and [start] sets [is_running] and enters the
    trading loop: the first cycle is run against the adapter that failed
    to initialize.  [start] refuses to run only when no strategy is loaded
    or no adapter is configured. *)
Theorem start_survives_adapter_initialize_failure {A : Type}
  `{BaseExchangeAdapter A}
  (agent : TradingAgent A) (a a' : A) (e : Exn)
  (all_signals : list (TradingSignal * Draw))
  (later : list (list (TradingSignal * Draw))) :
  strategies agent ≠ [] →
  exchange_adapter agent = Some a →
  adapter_initialize a = (Raised e, a') →
  ∃ running evs,
    is_running running = true ∧
    exchange_adapter running = Some a' ∧
    strategies running = map strategy_initialize (strategies agent) ∧
    fst (start agent (all_signals :: later))
    = AdapterInitializeFailed e :: Started
      :: match fst (_run_cycle running all_signals) with
         | Returned rs => CycleDone rs
         | Raised e' => CriticalError e'
         end
      :: evs.
Proof.
  intros Hss Hadapter Hinit.
  set (running :=
         set_is_running
           (set_strategies (set_adapter_portfolio agent a' (agent_portfolio agent))
              (map strategy_initialize (strategies agent)))
           true).
  destruct (main_loop_first_cycle running all_signals later) as [evs Hevs].
  exists running, (evs ++ [Stopped]).
  split; [reflexivity |]. split; [reflexivity |]. split; [reflexivity |].
  unfold start, initialize_components.
  destruct (strategies agent) as [| s ss] eqn:Hs; [done |].
  rewrite Hadapter, Hinit.
  cbn [set_adapter_portfolio strategies].
  rewrite Hs. fold running.
  destruct (main_loop running (all_signals :: later)) as [evs' agent3] eqn:Hloop.
  cbn [fst] in *. rewrite Hevs. reflexivity.
Qed.

Lemma start_survives_adapter_initialize_failure_witness :
  ∃ running evs,
    is_running running = true ∧
    exchange_adapter running = Some (mkUnreachableAtStartup scenario_adapter) ∧
    strategies running
    = map strategy_initialize [MovingAverageCrossover ma_strategy] ∧
    fst (start (agent_with (mkUnreachableAtStartup scenario_adapter)
                  [MovingAverageCrossover ma_strategy])
           [[(absolute_buy, draw_mid)]])
    = AdapterInitializeFailed ExchangeAdapterError :: Started
      :: match fst (_run_cycle running [(absolute_buy, draw_mid)]) with
         | Returned rs => CycleDone rs
         | Raised e' => CriticalError e'
         end
      :: evs.
Proof.
  apply (start_survives_adapter_initialize_failure
           (agent_with (mkUnreachableAtStartup scenario_adapter)
              [MovingAverageCrossover ma_strategy])
           (mkUnreachableAtStartup scenario_adapter)
           (mkUnreachableAtStartup scenario_adapter)
           ExchangeAdapterError [(absolute_buy, draw_mid)] []).
  - discriminate.
  - reflexivity.
  - reflexivity.
Defined.

(** C7, counterexample.  An agent whose adapter raises in [initialize] is
    started all the same; its first cycle submits the order of the signal
    it is given and the order is FILLED. *)
Lemma start_with_failed_adapter_counterexample :
  adapter_initialize (mkUnreachableAtStartup scenario_adapter)
  = (Raised ExchangeAdapterError, mkUnreachableAtStartup scenario_adapter) ∧
  ∃ o,
    fst (start (agent_with (mkUnreachableAtStartup scenario_adapter)
                  [MovingAverageCrossover ma_strategy])
           [[(absolute_buy, draw_mid)]])
    = [AdapterInitializeFailed ExchangeAdapterError; Started;
       CycleDone [Placed o]; Stopped] ∧
    status o = FILLED.
Proof.
  split; [reflexivity |].
  eexists. split; [vm_compute; reflexivity | reflexivity].
Qed.

(** ** Failures of [create_order] *)

Lemma settlement_raises (self self' : MockExchangeAdapter) (req : OrderRequest)
  (b q : string) (ep sp : Q) (d : Draw) (e : Exn) :
  settlement self req b q ep sp d = (Raised e, self') →
  self' = self ∧ e = InsufficientFundsError ∧ action req ≠ HOLD.
Proof.
  unfold settlement. intros H.
  destruct (action req); [destruct (Qltb _ _) | destruct (Qltb _ _) |];
    inversion H; subst; done.
Qed.

Lemma create_order_raised (self self' : MockExchangeAdapter)
  (req : OrderRequest) (d : Draw) (e : Exn) :
  create_order self req d = (Raised e, self') →
  self' = self ∧
  ((e = ValueError ∧ unpack2 (split slash (symbol req)) = None) ∨
   (e = TypeError ∧ order_type req = LIMIT ∧ price req = None) ∨
   (e = InsufficientFundsError ∧ action req ≠ HOLD)).
Proof.
  unfold create_order. intros H.
  destruct (Qltb _ _); [discriminate H |].
  destruct (unpack2 _) as [[b q] |] eqn:Hsym;
    [| inversion H; subst; split; [done | by left]].
  destruct (order_type req) eqn:Hty.
  - apply settlement_raises in H as (-> & -> & Ha).
    split; [done | right; right; done].
  - destruct (price req) as [limit |] eqn:Hp;
      [| inversion H; subst; split; [done | right; left; done]].
    destruct (_ && _); [discriminate H |].
    destruct (_ && _); [discriminate H |].
    apply settlement_raises in H as (-> & -> & Ha).
    split; [done | right; right; done].
Qed.

(** X1.  Whenever [create_order] raises, the adapter is exactly as it was,
    and the exception is one of three: [ValueError] for a symbol that does
    not split into base and quote, [TypeError] for a LIMIT order without a
    price, [InsufficientFundsError] from the funds check of a BUY or
    SELL. *)
Theorem create_order_raises (self self' : MockExchangeAdapter)
  (req : OrderRequest) (d : Draw) (e : Exn) :
  create_order self req d = (Raised e, self') →
  self' = self ∧
  ((e = ValueError ∧ unpack2 (split slash (symbol req)) = None) ∨
   (e = TypeError ∧ order_type req = LIMIT ∧ price req = None) ∨
   (e = InsufficientFundsError ∧ action req ≠ HOLD)).
Proof. apply create_order_raised. Qed.

Lemma create_order_raises_witness :
  snd (create_order scenario_adapter (market_order "BTCUSDT" BUY 0.1) draw_mid)
  = scenario_adapter ∧
  ((ValueError = ValueError ∧ unpack2 (split slash "BTCUSDT") = None) ∨
   (ValueError = TypeError ∧ MARKET = LIMIT ∧ @None Q = None) ∨
   (ValueError = InsufficientFundsError ∧ BUY ≠ HOLD)).
Proof.
  exact (create_order_raises scenario_adapter _
           (market_order "BTCUSDT" BUY 0.1) draw_mid ValueError eq_refl).
Defined.

(** ** Settlement of SELL orders *)

(** X2.  A SELL request that reaches settlement is checked against the
    base-asset holding: below the quantity [create_order] raises
    [InsufficientFundsError] and returns the adapter unchanged; otherwise
    the order is FILLED, the base asset is debited by the quantity and the
    quote balance is credited by proceeds - commission. *)
Theorem create_order_sell_funds_check
  (self : MockExchangeAdapter) (req : OrderRequest) (d : Draw)
  (base_currency quote_currency : string) (execution_price : Q) :
  reaches_settlement self req d base_currency quote_currency execution_price →
  action req = SELL →
  let proceeds := quantity req * execution_price in
  let commission := proceeds * commission_rate self in
  let held := get0 (asset_holdings (portfolio self)) base_currency in
  (held < quantity req →
   create_order self req d = (Raised InsufficientFundsError, self)) ∧
  (¬ (held < quantity req) →
   ∃ o self',
     create_order self req d = (Returned o, self') ∧
     status o = FILLED ∧
     fee o = Some commission ∧
     get0 (asset_holdings (portfolio self')) base_currency == held - quantity req ∧
     get0 (cash_balance (portfolio self')) quote_currency
       == get0 (cash_balance (portfolio self)) quote_currency
          + (proceeds - commission)).
Proof.
  intros Hreach Hsell proceeds commission held.
  rewrite (create_order_settles _ _ _ _ _ _ Hreach).
  split; intros Hheld.
  - by apply settlement_sell_short.
  - rewrite settlement_sell_funded; [| exact Hsell | exact Hheld].
    eexists _, _. split; [reflexivity |]. split; [reflexivity |].
    split; [reflexivity |].
    cbn [portfolio set_trade_history set_portfolio]. split.
    + apply sell_legs_asset.
    + apply sell_legs_cash.
Qed.

Lemma create_order_sell_funds_check_witness :
  create_order scenario_adapter (market_order "BTC/USDT" SELL 0.1) draw_mid
  = (Raised InsufficientFundsError, scenario_adapter).
Proof.
  refine (proj1 (create_order_sell_funds_check scenario_adapter
                   (market_order "BTC/USDT" SELL 0.1) draw_mid "BTC" "USDT"
                   (50000 * (1 + (0.5 - 0.5) * 0.0005) * (1 - 0.001)) _ _) _).
  - split; [vm_compute; discriminate |]. split; reflexivity.
  - reflexivity.
  - vm_compute. reflexivity.
Defined.

(** ** No negative balance *)

Lemma nonneg_get0 (m : gmap string Q) (k : string) :
  map_Forall (λ _ v, 0 <= v) m → 0 <= get0 m k.
Proof.
  intros Hm. unfold get0. destruct (m !! k) as [v |] eqn:E; cbn.
  - exact (Hm k v E).
  - lra.
Qed.

Lemma nonneg_insert (m : gmap string Q) (k : string) (v : Q) :
  map_Forall (λ _ v, 0 <= v) m → 0 <= v →
  map_Forall (λ _ v, 0 <= v) (<[k := v]> m).
Proof. intros Hm Hv. by apply map_Forall_insert_2. Qed.

Lemma sim_price_nonneg (self : MockExchangeAdapter) (sym : string) (r : Q) :
  sane_parameters self → 0 <= r < 1 → 0 <= _get_sim_price self sym r.
Proof.
  intros (_ & _ & Hp) [Hr0 Hr1]. unfold _get_sim_price.
  apply Qmult_le_0_compat; [| lra].
  destruct (current_sim_prices self !! sym) as [p |] eqn:E.
  - exact (Hp sym p E).
  - lra.
Qed.

Lemma settlement_holdings_nonneg (self self' : MockExchangeAdapter)
  (req : OrderRequest) (b q : string) (ep sp : Q) (d : Draw)
  (r : Outcome ExecutedOrder) :
  map_Forall (λ _ v, 0 <= v) (asset_holdings (portfolio self)) →
  0 <= quantity req →
  settlement self req b q ep sp d = (r, self') →
  map_Forall (λ _ v, 0 <= v) (asset_holdings (portfolio self')).
Proof.
  intros Ha Hq. unfold settlement.
  pose proof (nonneg_get0 _ b Ha) as Hab.
  destruct (action req).
  - destruct (Qltb _ _); intros H; inversion H; subst; [exact Ha |].
    cbn [portfolio set_trade_history set_portfolio].
    unfold update_asset, update_cash; cbn [cash_balance asset_holdings].
    apply nonneg_insert; [exact Ha | lra].
  - destruct (Qltb _ _) eqn:Efunds; intros H; inversion H; subst; [exact Ha |].
    apply Qltb_false in Efunds.
    cbn [portfolio set_trade_history set_portfolio].
    unfold update_asset, update_cash; cbn [cash_balance asset_holdings].
    apply nonneg_insert; [exact Ha | lra].
  - intros H; inversion H; subst. exact Ha.
Qed.

Lemma settlement_cash_nonneg (self self' : MockExchangeAdapter)
  (req : OrderRequest) (b q : string) (ep sp : Q) (d : Draw)
  (r : Outcome ExecutedOrder) :
  map_Forall (λ _ v, 0 <= v) (cash_balance (portfolio self)) →
  0 <= commission_rate self <= 1 →
  0 <= quantity req → 0 <= ep →
  action req ≠ BUY →
  settlement self req b q ep sp d = (r, self') →
  map_Forall (λ _ v, 0 <= v) (cash_balance (portfolio self')).
Proof.
  intros Hc [Hk0 Hk1] Hq Hep Hnb. unfold settlement.
  assert (Hcost : 0 <= quantity req * ep) by (by apply Qmult_le_0_compat).
  assert (Hnet : quantity req * ep * commission_rate self <= quantity req * ep).
  { assert (0 <= quantity req * ep * (1 - commission_rate self))
      by (apply Qmult_le_0_compat; lra).
    lra. }
  pose proof (nonneg_get0 _ q Hc) as Hcq.
  destruct (action req); [done | |].
  - destruct (Qltb _ _); intros H; inversion H; subst; [exact Hc |].
    cbn [portfolio set_trade_history set_portfolio].
    unfold update_asset, update_cash; cbn [cash_balance asset_holdings].
    rewrite get0_insert_eq.
    apply nonneg_insert; [by apply nonneg_insert; [| lra] | lra].
  - intros H; inversion H; subst. exact Hc.
Qed.

(** X3.  [create_order] never makes an asset holding negative: with a
    non-negative quantity, if no holding is negative before the call, none
    is after it, whatever the action and the outcome.  And a call that is
    not a BUY never makes a cash balance negative either, given a
    commission rate and a slippage factor between 0 and 1, no negative
    configured price and (for LIMIT) a non-negative limit: a SELL credits
    proceeds of which the commission is at most the whole.  The cash side
    of a BUY is left out: its check is made on one sum and its debit in
    two steps. *)
Theorem create_order_keeps_holdings_nonnegative
  (self : MockExchangeAdapter) (req : OrderRequest) (d : Draw) :
  0 <= quantity req →
  (map_Forall (λ _ v, 0 <= v) (asset_holdings (portfolio self)) →
   map_Forall (λ _ v, 0 <= v)
     (asset_holdings (portfolio (snd (create_order self req d))))) ∧
  (action req ≠ BUY →
   sane_parameters self →
   0 <= r_noise d < 1 →
   (∀ limit, price req = Some limit → 0 <= limit) →
   map_Forall (λ _ v, 0 <= v) (cash_balance (portfolio self)) →
   map_Forall (λ _ v, 0 <= v)
     (cash_balance (portfolio (snd (create_order self req d))))).
Proof.
  intros Hq. split.
  - intros Ha. unfold create_order.
    destruct (Qltb _ _); [exact Ha |].
    destruct (unpack2 _) as [[b q] |]; [| exact Ha].
    destruct (order_type req).
    + destruct (settlement _ _ _ _ _ _ _) as [r self'] eqn:Hset.
      by eapply settlement_holdings_nonneg in Hset.
    + destruct (price req) as [limit |]; [| exact Ha].
      destruct (_ && _); [exact Ha |].
      destruct (_ && _); [exact Ha |].
      destruct (settlement _ _ _ _ _ _ _) as [r self'] eqn:Hset.
      by eapply settlement_holdings_nonneg in Hset.
  - intros Hnb Hsane Hr Hlimit Hc.
    pose proof (sim_price_nonneg self (symbol req) (r_noise d) Hsane Hr) as Hsim.
    destruct Hsane as (Hk & [Hs0 Hs1] & _).
    unfold create_order.
    destruct (Qltb _ _); [exact Hc |].
    destruct (unpack2 _) as [[b q] |]; [| exact Hc].
    destruct (order_type req).
    + destruct (settlement _ _ _ _ _ _ _) as [r self'] eqn:Hset.
      eapply settlement_cash_nonneg in Hset; try eassumption.
      destruct (action req); [done | |]; apply Qmult_le_0_compat; lra.
    + destruct (price req) as [limit |] eqn:Hp; [| exact Hc].
      specialize (Hlimit limit eq_refl).
      destruct (_ && _); [exact Hc |].
      destruct (_ && _); [exact Hc |].
      destruct (settlement _ _ _ _ _ _ _) as [r self'] eqn:Hset.
      eapply settlement_cash_nonneg in Hset; eassumption.
Qed.

Lemma create_order_keeps_holdings_nonnegative_witness :
  map_Forall (λ _ v, 0 <= v)
    (asset_holdings
       (portfolio (snd (create_order funded_adapter
                          (market_order "BTC/USDT" SELL 0.4) draw_mid)))) ∧
  map_Forall (λ _ v, 0 <= v)
    (cash_balance
       (portfolio (snd (create_order funded_adapter
                          (market_order "BTC/USDT" SELL 0.4) draw_mid)))).
Proof.
  destruct (create_order_keeps_holdings_nonnegative funded_adapter
              (market_order "BTC/USDT" SELL 0.4) draw_mid) as [Hh Hc].
  - vm_compute. discriminate.
  - split.
    + apply Hh. apply map_Forall_singleton. vm_compute. discriminate.
    + apply Hc.
      * discriminate.
      * split; [split; vm_compute; discriminate |].
        split; [split; vm_compute; discriminate |].
        apply map_Forall_singleton. vm_compute. discriminate.
      * split; vm_compute; [discriminate | reflexivity].
      * intros limit H. discriminate H.
      * apply map_Forall_singleton. vm_compute. discriminate.
Defined.

(** ** Cancelling *)

(** X4.  [cancel_order] never touches the portfolio or the prices, and it
    is idempotent: cancelling the same id a second time returns False and
    changes nothing, whether or not the first call found the order. *)
Theorem cancel_order_idempotent (self : MockExchangeAdapter) (oid : string) :
  portfolio (snd (cancel_order self oid)) = portfolio self ∧
  current_sim_prices (snd (cancel_order self oid)) = current_sim_prices self ∧
  cancel_order (snd (cancel_order self oid)) oid
  = (false, snd (cancel_order self oid)).
Proof.
  unfold cancel_order at 1 2 4 5.
  destruct (open_orders self !! oid) as [o |] eqn:E; cbn [snd].
  - split; [reflexivity |]. split; [reflexivity |].
    unfold cancel_order.
    cbn [open_orders set_trade_history set_open_orders].
    by rewrite lookup_delete_eq.
  - split; [reflexivity |]. split; [reflexivity |].
    unfold cancel_order. by rewrite E.
Qed.

(** X5.  Resting a LIMIT BUY and then cancelling it under the returned id
    is a round trip for the ledger and the index: [cancel_order] returns
    True, the portfolio is the one before the order, the index is the one
    before the order (when the id was free), and the history has gained
    exactly the order with status CANCELED. *)
Theorem rest_then_cancel
  (self : MockExchangeAdapter) (req : OrderRequest) (d : Draw)
  (base_currency quote_currency : string) (limit : Q) :
  ¬ (fill_probability self < r_fill d) →
  unpack2 (split slash (symbol req)) = Some (base_currency, quote_currency) →
  order_type req = LIMIT →
  action req = BUY →
  price req = Some limit →
  limit < _get_sim_price self (symbol req) (r_noise d) →
  open_orders self !! order_id_or req "mock_open_" d = None →
  ∃ o self1 self2,
    create_order self req d = (Returned o, self1) ∧
    cancel_order self1 (order_id o) = (true, self2) ∧
    portfolio self2 = portfolio self ∧
    open_orders self2 = open_orders self ∧
    trade_history self2 = trade_history self ++ [set_status o CANCELED].
Proof.
  intros Hroll Hsym Hty Hbuy Hp Hlt Hfree.
  eexists (pending_order req limit d), _, _.
  split.
  { unfold create_order.
    apply Qltb_false in Hroll. apply Qltb_true in Hlt.
    rewrite Hroll, Hsym, Hty, Hp, Hbuy, Hlt. reflexivity. }
  unfold cancel_order. cbn [open_orders set_open_orders].
  rewrite lookup_insert_eq. split; [reflexivity |].
  split; [reflexivity |]. split; [| reflexivity].
  cbn [open_orders set_trade_history set_open_orders].
  rewrite delete_insert_eq. by apply delete_id.
Qed.

Lemma rest_then_cancel_witness :
  ∃ o self1 self2,
    create_order scenario_adapter (limit_order "BTC/USDT" BUY 0.1 40000) draw_mid
    = (Returned o, self1) ∧
    cancel_order self1 (order_id o) = (true, self2) ∧
    portfolio self2 = portfolio scenario_adapter ∧
    open_orders self2 = open_orders scenario_adapter ∧
    trade_history self2 = trade_history scenario_adapter ++ [set_status o CANCELED].
Proof.
  apply (rest_then_cancel scenario_adapter
           (limit_order "BTC/USDT" BUY 0.1 40000) draw_mid "BTC" "USDT" 40000).
  - vm_compute. discriminate.
  - reflexivity.
  - reflexivity.
  - reflexivity.
  - reflexivity.
  - vm_compute. reflexivity.
  - reflexivity.
Defined.

(** ** Invariants of the index and the history *)

Lemma call_index_ok (self : MockExchangeAdapter) (c : AdapterCall) :
  index_ok self → index_ok (call self c).
Proof.
  unfold index_ok. intros Hok.
  destruct c as [req d | x | sym p | |]; cbn [call].
  - destruct (create_order_index self req d) as [-> | (o & Hid & Hst & ->)];
      [exact Hok |].
    by apply map_Forall_insert_2.
  - unfold cancel_order. destruct (open_orders self !! x); [| exact Hok].
    cbn [snd open_orders set_trade_history set_open_orders].
    by apply map_Forall_delete.
  - exact Hok.
  - exact Hok.
  - apply map_Forall_empty.
Qed.

(** X6.  Every entry of the open-orders index is filed under its own
    order id and has status OPEN, and no sequence of adapter calls
    (orders, cancellations, price updates, shutdown) breaks this. *)
Theorem run_index_ok (cs : list AdapterCall) (self : MockExchangeAdapter) :
  index_ok self → index_ok (run self cs).
Proof.
  revert self. induction cs as [| c cs IH]; intros self Hok.
  - exact Hok.
  - change (run self (c :: cs)) with (run (call self c) cs).
    apply IH. by apply call_index_ok.
Qed.

Lemma run_index_ok_witness :
  index_ok
    (run scenario_adapter
       [CallCreateOrder (limit_order "BTC/USDT" BUY 0.1 40000) draw_mid;
        CallUpdatePrice "BTC/USDT" 30000;
        CallCreateOrder scenario_request draw_low]).
Proof.
  apply (run_index_ok _ scenario_adapter). apply map_Forall_empty.
Defined.

Lemma settlement_history (self : MockExchangeAdapter) (req : OrderRequest)
  (b q : string) (ep sp : Q) (d : Draw) :
  trade_history (snd (settlement self req b q ep sp d)) = trade_history self ∨
  ∃ o, status o = FILLED ∧
       trade_history (snd (settlement self req b q ep sp d))
       = trade_history self ++ [o].
Proof.
  unfold settlement.
  destruct (action req); [destruct (Qltb _ _) | destruct (Qltb _ _) |];
    first [by left | right; eexists; split; [| reflexivity]; reflexivity].
Qed.

Lemma call_history (self : MockExchangeAdapter) (c : AdapterCall) :
  ∃ more,
    trade_history (call self c) = trade_history self ++ more ∧
    Forall (λ o, status o = FILLED ∨ status o = CANCELED) more.
Proof.
  assert (Hnone : ∀ s : MockExchangeAdapter,
            trade_history s = trade_history self →
            ∃ more, trade_history s = trade_history self ++ more ∧
                    Forall (λ o, status o = FILLED ∨ status o = CANCELED) more).
  { intros s Hs. exists []. by rewrite app_nil_r. }
  assert (Hfill : ∀ req b q ep sp d,
            ∃ more,
              trade_history (snd (settlement self req b q ep sp d))
              = trade_history self ++ more ∧
              Forall (λ o, status o = FILLED ∨ status o = CANCELED) more).
  { intros req b q ep sp d.
    destruct (settlement_history self req b q ep sp d) as [E | (o & Hst & E)].
    - by apply Hnone.
    - exists [o]. split; [exact E |]. apply Forall_singleton. by left. }
  destruct c as [req d | x | sym p | |]; cbn [call]; try by apply Hnone.
  - unfold create_order.
    destruct (Qltb _ _); [by apply Hnone |].
    destruct (unpack2 _) as [[b q] |]; [| by apply Hnone].
    destruct (order_type req); [apply Hfill |].
    destruct (price req) as [limit |]; [| by apply Hnone].
    destruct (_ && _); [by apply Hnone |].
    destruct (_ && _); [by apply Hnone |].
    apply Hfill.
  - unfold cancel_order. destruct (open_orders self !! x) as [o |];
      [| by apply Hnone].
    exists [set_status o CANCELED]. split; [reflexivity |].
    apply Forall_singleton. by right.
Qed.

(** X7.  The trade history is an append-only log: after any sequence of
    adapter calls it is the old history followed by new entries, and every
    new entry is FILLED or CANCELED (a REJECTED or OPEN order is never
    written to it). *)
Theorem run_history_append_only (cs : list AdapterCall)
  (self : MockExchangeAdapter) :
  ∃ more,
    trade_history (run self cs) = trade_history self ++ more ∧
    Forall (λ o, status o = FILLED ∨ status o = CANCELED) more.
Proof.
  revert self. induction cs as [| c cs IH]; intros self.
  - exists []. split; [by rewrite app_nil_r | constructor].
  - change (run self (c :: cs)) with (run (call self c) cs).
    destruct (IH (call self c)) as (m2 & E2 & F2).
    destruct (call_history self c) as (m1 & E1 & F1).
    exists (m1 ++ m2). split.
    + by rewrite E2, E1, app_assoc.
    + by apply Forall_app.
Qed.

(** ** Looking orders up *)

Lemma find_order_id (h : list ExecutedOrder) (oid : string) (o : ExecutedOrder) :
  List.find (λ trade, String.eqb (order_id trade) oid) h = Some o →
  order_id o = oid.
Proof.
  intros H. apply List.find_some in H as [_ H]. by apply String.eqb_eq.
Qed.

Lemma find_fresh_then_appended (h : list ExecutedOrder) (o : ExecutedOrder) :
  List.find (λ trade, String.eqb (order_id trade) (order_id o)) h = None →
  List.find (λ trade, String.eqb (order_id trade) (order_id o)) (h ++ [o]) = Some o.
Proof.
  induction h as [| x h IH]; cbn [List.find app].
  - by rewrite String.eqb_refl.
  - destruct (String.eqb (order_id x) (order_id o)); [discriminate | exact IH].
Qed.

Lemma create_order_recorded (self self' : MockExchangeAdapter)
  (req : OrderRequest) (d : Draw) (o : ExecutedOrder) :
  create_order self req d = (Returned o, self') →
  match status o with
  | FILLED =>
      trade_history self' = trade_history self ++ [o] ∧
      open_orders self' = open_orders self
  | OPEN => open_orders self' !! order_id o = Some o
  | REJECTED => self' = self
  | CANCELED => False
  end.
Proof.
  unfold create_order. intros H.
  destruct (Qltb _ _); [by inversion H |].
  destruct (unpack2 _) as [[b q] |]; [| discriminate H].
  destruct (order_type req).
  { by apply settlement_records in H as (-> & ? & ? & _). }
  destruct (price req) as [limit |]; [| discriminate H].
  destruct (_ && _).
  { inversion H; subst. cbn. apply lookup_insert_eq. }
  destruct (_ && _).
  { inversion H; subst. cbn. apply lookup_insert_eq. }
  by apply settlement_records in H as (-> & ? & ? & _).
Qed.

(** X8.  [get_order_status] answers with an order of the id asked for
    (given that the index files orders under their ids).  An order that
    [create_order] returns OPEN is found under its id at once; one it
    returns FILLED is found under its id when that id was not in use
    before; one it returns REJECTED is not findable: the answer for its id
    is the same as before the call. *)
Theorem get_order_status_after_create_order
  (self self' : MockExchangeAdapter) (req : OrderRequest) (d : Draw)
  (o : ExecutedOrder) :
  index_ok self →
  create_order self req d = (Returned o, self') →
  (∀ oid found, get_order_status self' oid = Some found → order_id found = oid) ∧
  match status o with
  | OPEN => get_order_status self' (order_id o) = Some o
  | FILLED =>
      get_order_status self (order_id o) = None →
      get_order_status self' (order_id o) = Some o
  | _ => get_order_status self' (order_id o) = get_order_status self (order_id o)
  end.
Proof.
  intros Hok Hc. split.
  - assert (Hok' : index_ok self').
    { change self' with (snd (Returned o, self')). rewrite <- Hc.
      exact (call_index_ok self (CallCreateOrder req d) Hok). }
    intros oid found. unfold get_order_status.
    destruct (open_orders self' !! oid) as [x |] eqn:E.
    + intros [= <-]. exact (proj1 (Hok' oid x E)).
    + apply find_order_id.
  - pose proof (create_order_recorded _ _ _ _ _ Hc) as Hrec.
    destruct (status o); unfold get_order_status.
    + destruct Hrec as [Hh Hi]. rewrite Hi, Hh.
      destruct (open_orders self !! order_id o); [discriminate |].
      apply find_fresh_then_appended.
    + by rewrite Hrec.
    + destruct Hrec.
    + by rewrite Hrec.
Qed.

Lemma get_order_status_after_create_order_witness :
  ∃ o self',
    create_order scenario_adapter (limit_order "BTC/USDT" BUY 0.1 40000) draw_mid
    = (Returned o, self') ∧
    get_order_status self' (order_id o) = Some o.
Proof.
  eexists _, _. split; [vm_compute; reflexivity |].
  exact (proj2 (get_order_status_after_create_order scenario_adapter _
                  (limit_order "BTC/USDT" BUY 0.1 40000) draw_mid _
                  (map_Forall_empty _) eq_refl)).
Defined.

(** X9.  [get_open_orders] returns exactly the orders of the index: all
    of them when no symbol (or the empty string) is given, and otherwise
    those whose symbol is the one asked for. *)
Theorem get_open_orders_membership (self : MockExchangeAdapter)
  (sym : option string) (o : ExecutedOrder) :
  o ∈ get_open_orders self sym ↔
  (∃ k, open_orders self !! k = Some o) ∧
  (truthy_str sym = true → Some (eo_symbol o) = sym).
Proof.
  assert (Hval : ∀ x : ExecutedOrder,
            x ∈ map snd (map_to_list (open_orders self))
            ↔ ∃ k, open_orders self !! k = Some x).
  { intros x. rewrite list_elem_of_fmap. split.
    - intros ([k v] & -> & Hin). exists k. by apply elem_of_map_to_list.
    - intros [k Hk]. exists (k, x). split; [done |].
      by apply elem_of_map_to_list. }
  unfold get_open_orders. destruct (truthy_str sym) eqn:Ht.
  - destruct sym as [s |]; [| discriminate Ht]. cbn [default].
    rewrite list_elem_of_In, List.filter_In, <- list_elem_of_In, Hval.
    rewrite String.eqb_eq. split.
    + intros [Hk Hs]. split; [exact Hk |]. intros _. by rewrite Hs.
    + intros [Hk Hs]. split; [exact Hk |]. specialize (Hs eq_refl). by injection Hs.
  - rewrite Hval. split; [intros Hk; split; [exact Hk | discriminate] | tauto].
Qed.

(** ** LIMIT orders *)

(** X10.  A LIMIT SELL that passes the non-fill roll and whose limit is
    strictly above the simulated price of the call rests: it is returned
    OPEN and filed in the index, no asset or cash moves and nothing is
    appended to the history, even when the seller holds none of the
    asset. *)
Theorem limit_sell_above_reference_rests
  (self : MockExchangeAdapter) (req : OrderRequest) (d : Draw)
  (base_currency quote_currency : string) (limit : Q) :
  ¬ (fill_probability self < r_fill d) →
  unpack2 (split slash (symbol req)) = Some (base_currency, quote_currency) →
  order_type req = LIMIT →
  action req = SELL →
  price req = Some limit →
  _get_sim_price self (symbol req) (r_noise d) < limit →
  ∃ o self',
    create_order self req d = (Returned o, self') ∧
    status o = OPEN ∧
    eo_price o = limit ∧
    portfolio self' = portfolio self ∧
    trade_history self' = trade_history self ∧
    open_orders self' !! order_id o = Some o.
Proof.
  intros Hroll Hsym Hty Hsell Hp Hlt.
  eexists (pending_order req limit d), _.
  split.
  { unfold create_order.
    apply Qltb_false in Hroll. apply Qltb_true in Hlt.
    rewrite Hroll, Hsym, Hty, Hp, Hsell, Hlt. reflexivity. }
  split; [reflexivity |]. split; [reflexivity |]. split; [reflexivity |].
  split; [reflexivity |].
  cbn [open_orders set_open_orders]. apply lookup_insert_eq.
Qed.

Lemma limit_sell_above_reference_rests_witness :
  ∃ o self',
    create_order scenario_adapter (limit_order "BTC/USDT" SELL 0.1 60000) draw_mid
    = (Returned o, self') ∧
    status o = OPEN ∧
    eo_price o = 60000 ∧
    portfolio self' = portfolio scenario_adapter ∧
    trade_history self' = trade_history scenario_adapter ∧
    open_orders self' !! order_id o = Some o.
Proof.
  apply (limit_sell_above_reference_rests scenario_adapter
           (limit_order "BTC/USDT" SELL 0.1 60000) draw_mid "BTC" "USDT" 60000).
  - vm_compute. discriminate.
  - reflexivity.
  - reflexivity.
  - reflexivity.
  - reflexivity.
  - vm_compute. reflexivity.
Defined.

(** X11.  A LIMIT BUY that passes the roll and whose limit is at or above
    the simulated price is settled at the limit itself, not at the lower
    simulated price: when the quote balance covers it, the order is FILLED
    with price = limit, the commission is charged on quantity × limit, and
    the quote balance drops by quantity × limit + commission. *)
Theorem crossed_limit_buy_fills_at_limit
  (self : MockExchangeAdapter) (req : OrderRequest) (d : Draw)
  (base_currency quote_currency : string) (limit : Q) :
  ¬ (fill_probability self < r_fill d) →
  unpack2 (split slash (symbol req)) = Some (base_currency, quote_currency) →
  order_type req = LIMIT →
  action req = BUY →
  price req = Some limit →
  _get_sim_price self (symbol req) (r_noise d) <= limit →
  ¬ (get0 (cash_balance (portfolio self)) quote_currency
     < quantity req * limit
       + (if negb (String.eqb quote_currency base_currency)
          then quantity req * limit * commission_rate self else 0)) →
  ∃ o self',
    create_order self req d = (Returned o, self') ∧
    status o = FILLED ∧
    eo_price o = limit ∧
    fee o = Some (quantity req * limit * commission_rate self) ∧
    get0 (cash_balance (portfolio self')) quote_currency
      == get0 (cash_balance (portfolio self)) quote_currency
         - (quantity req * limit + quantity req * limit * commission_rate self).
Proof.
  intros Hroll Hsym Hty Hbuy Hp Hle Hfunds.
  assert (Hreach : reaches_settlement self req d base_currency quote_currency limit).
  { split; [exact Hroll |]. split; [exact Hsym |]. rewrite Hty.
    split; [exact Hp |]. split.
    - intros [_ Hlt]. lra.
    - intros [Hs _]. congruence. }
  rewrite (create_order_settles _ _ _ _ _ _ Hreach).
  rewrite settlement_buy_funded; [| exact Hbuy | exact Hfunds].
  eexists _, _. split; [reflexivity |]. split; [reflexivity |].
  split; [reflexivity |]. split; [reflexivity |].
  cbn [portfolio set_trade_history set_portfolio]. apply buy_legs_cash.
Qed.

Lemma crossed_limit_buy_fills_at_limit_witness :
  ∃ o self',
    create_order scenario_adapter (limit_order "BTC/USDT" BUY 0.1 60000) draw_mid
    = (Returned o, self') ∧
    status o = FILLED ∧
    eo_price o = 60000 ∧
    fee o = Some (0.1 * 60000 * 0.001) ∧
    get0 (cash_balance (portfolio self')) "USDT"
      == get0 (cash_balance (portfolio scenario_adapter)) "USDT"
         - (0.1 * 60000 + 0.1 * 60000 * 0.001).
Proof.
  apply (crossed_limit_buy_fills_at_limit scenario_adapter
           (limit_order "BTC/USDT" BUY 0.1 60000) draw_mid "BTC" "USDT" 60000).
  - vm_compute. discriminate.
  - reflexivity.
  - reflexivity.
  - reflexivity.
  - reflexivity.
  - vm_compute. discriminate.
  - vm_compute. discriminate.
Defined.

(** ** The roll *)

(** X13.  The status REJECTED comes from the non-fill roll and from
    nowhere else: an order returned by [create_order] is REJECTED exactly
    when the roll exceeds [fill_probability].  In particular an adapter
    with fill probability 1 or more rejects no order. *)
Theorem rejected_iff_roll (self self' : MockExchangeAdapter)
  (req : OrderRequest) (d : Draw) (o : ExecutedOrder) :
  create_order self req d = (Returned o, self') →
  (status o = REJECTED ↔ fill_probability self < r_fill d).
Proof.
  intros Hc. split.
  - intros Hst. destruct (Qlt_le_dec (fill_probability self) (r_fill d)) as [Hlt | Hge];
      [exact Hlt | exfalso].
    revert Hc. unfold create_order.
    assert (Hroll : Qltb (fill_probability self) (r_fill d) = false)
      by (apply Qltb_false; lra).
    rewrite Hroll. intros Hc.
    repeat case_branch Hc;
      try (apply settlement_records in Hc as (Hf & _); congruence);
      inversion Hc; subst; discriminate Hst.
  - intros Hlt. rewrite (create_order_rejects _ _ _ Hlt) in Hc.
    by inversion Hc.
Qed.

Lemma rejected_iff_roll_witness :
  ∃ o self',
    create_order flaky_adapter scenario_request draw_high = (Returned o, self') ∧
    (status o = REJECTED ↔ fill_probability flaky_adapter < r_fill draw_high).
Proof.
  eexists _, _. split; [vm_compute; reflexivity |].
  exact (rejected_iff_roll flaky_adapter _ scenario_request draw_high _ eq_refl).
Defined.

(** X14.  An order request whose action is HOLD is not refused: a MARKET
    request that passes the roll is recorded in the history as FILLED, at
    the SELL-side price and with a commission in its [fee] field, while
    the portfolio is left exactly as it was. *)
Theorem hold_request_is_filled_without_funds
  (self : MockExchangeAdapter) (req : OrderRequest) (d : Draw)
  (base_currency quote_currency : string) :
  ¬ (fill_probability self < r_fill d) →
  unpack2 (split slash (symbol req)) = Some (base_currency, quote_currency) →
  order_type req = MARKET →
  action req = HOLD →
  let execution_price :=
    _get_sim_price self (symbol req) (r_noise d) * (1 - slippage_factor self) in
  ∃ o self',
    create_order self req d = (Returned o, self') ∧
    status o = FILLED ∧
    eo_price o = execution_price ∧
    fee o = Some (quantity req * execution_price * commission_rate self) ∧
    portfolio self' = portfolio self ∧
    trade_history self' = trade_history self ++ [o].
Proof.
  intros Hroll Hsym Hty Hhold execution_price.
  assert (Hreach : reaches_settlement self req d base_currency quote_currency
                     execution_price).
  { split; [exact Hroll |]. split; [exact Hsym |]. by rewrite Hty, Hhold. }
  rewrite (create_order_settles _ _ _ _ _ _ Hreach).
  unfold settlement. rewrite Hhold.
  eexists _, _. split; [reflexivity |]. by repeat split.
Qed.

Lemma hold_request_is_filled_without_funds_witness :
  ∃ o self',
    create_order scenario_adapter (market_order "BTC/USDT" HOLD 0.1) draw_mid
    = (Returned o, self') ∧
    status o = FILLED ∧
    eo_price o = _get_sim_price scenario_adapter "BTC/USDT" 0.5 * (1 - 0.001) ∧
    fee o = Some (0.1 * (_get_sim_price scenario_adapter "BTC/USDT" 0.5 * (1 - 0.001))
                  * 0.001) ∧
    portfolio self' = portfolio scenario_adapter ∧
    trade_history self' = trade_history scenario_adapter ++ [o].
Proof.
  apply (hold_request_is_filled_without_funds scenario_adapter
           (market_order "BTC/USDT" HOLD 0.1) draw_mid "BTC" "USDT").
  - vm_compute. discriminate.
  - reflexivity.
  - reflexivity.
  - reflexivity.
Defined.

(** ** What adapter calls never change *)

Lemma settlement_parameters (self : MockExchangeAdapter) (req : OrderRequest)
  (b q : string) (ep sp : Q) (d : Draw) :
  let self' := snd (settlement self req b q ep sp d) in
  slippage_factor self' = slippage_factor self ∧
  commission_rate self' = commission_rate self ∧
  fill_probability self' = fill_probability self ∧
  current_sim_prices self' = current_sim_prices self.
Proof.
  unfold settlement.
  destruct (action req); [destruct (Qltb _ _) | destruct (Qltb _ _) |]; done.
Qed.

Lemma create_order_parameters (self : MockExchangeAdapter) (req : OrderRequest)
  (d : Draw) :
  let self' := snd (create_order self req d) in
  slippage_factor self' = slippage_factor self ∧
  commission_rate self' = commission_rate self ∧
  fill_probability self' = fill_probability self ∧
  current_sim_prices self' = current_sim_prices self.
Proof.
  unfold create_order.
  destruct (Qltb _ _); [done |].
  destruct (unpack2 _) as [[b q] |]; [| done].
  destruct (order_type req); [apply settlement_parameters |].
  destruct (price req) as [limit |]; [| done].
  destruct (_ && _); [done |].
  destruct (_ && _); [done |].
  apply settlement_parameters.
Qed.

Lemma call_leaves_alone (self : MockExchangeAdapter) (c : AdapterCall) :
  slippage_factor (call self c) = slippage_factor self ∧
  commission_rate (call self c) = commission_rate self ∧
  fill_probability (call self c) = fill_probability self ∧
  (∀ sym, ¬ updates_price_of sym c →
          current_sim_prices (call self c) !! sym = current_sim_prices self !! sym) ∧
  (¬ is_create_order c → portfolio (call self c) = portfolio self).
Proof.
  destruct c as [req d | x | sym p | |]; cbn [call is_create_order updates_price_of].
  - destruct (create_order_parameters self req d) as (-> & -> & -> & ->).
    repeat split; tauto.
  - unfold cancel_order. destruct (open_orders self !! x); by repeat split.
  - repeat split; try done.
    intros s Hs. cbn [update_price current_sim_prices set_current_sim_prices].
    by rewrite lookup_insert_ne.
  - by repeat split.
  - by repeat split.
Qed.

(** X15.  Over any sequence of adapter calls the slippage factor, the
    commission rate and the fill probability stay what they were; the
    configured price of a symbol changes only through [update_price] for
    that symbol; and the portfolio changes only through [create_order]:
    cancelling, price updates, balance queries and shutdown never move
    funds. *)
Theorem run_leaves_alone (cs : list AdapterCall) (self : MockExchangeAdapter) :
  slippage_factor (run self cs) = slippage_factor self ∧
  commission_rate (run self cs) = commission_rate self ∧
  fill_probability (run self cs) = fill_probability self ∧
  (∀ sym, Forall (λ c, ¬ updates_price_of sym c) cs →
          current_sim_prices (run self cs) !! sym = current_sim_prices self !! sym) ∧
  (Forall (λ c, ¬ is_create_order c) cs → portfolio (run self cs) = portfolio self).
Proof.
  revert self. induction cs as [| c cs IH]; intros self.
  - by repeat split.
  - change (run self (c :: cs)) with (run (call self c) cs).
    destruct (IH (call self c)) as (-> & -> & -> & Hp & Hf).
    destruct (call_leaves_alone self c) as (-> & -> & -> & Hp1 & Hf1).
    split; [done |]. split; [done |]. split; [done |]. split.
    + intros sym Hcs. apply Forall_cons in Hcs as [Hc Hcs].
      rewrite Hp by exact Hcs. by apply Hp1.
    + intros Hcs. apply Forall_cons in Hcs as [Hc Hcs].
      rewrite Hf by exact Hcs. by apply Hf1.
Qed.

(** ** The sentiment strategy *)





Lemma sl_signal_for_shape (l l' : SentimentLLMStrategy) (inp : SentimentInputs)
  (pf : AgentPortfolio) (symbol_base : string) (s : TradingSignal) :
  sl_signal_for l inp pf symbol_base = (s, l') →
  sig_symbol s = symbol_base +:+ "/" +:+ sl_quote_currency l ∧
  sig_strategy_name s = sl_strategy_name l ∧
  quantity_absolute s = None ∧
  sl_quote_currency l' = sl_quote_currency l ∧
  sl_strategy_name l' = sl_strategy_name l ∧
  target_symbols l' = target_symbols l.
Proof.
  unfold sl_signal_for. intros H.
  repeat case_branch H; inversion H; subst; done.
Qed.

Lemma sl_loop_shape (symbols : list string) :
  ∀ (l l' : SentimentLLMStrategy) (inp : SentimentInputs) (pf : AgentPortfolio)
    (sigs : list TradingSignal),
    sl_loop l inp pf symbols = (sigs, l') →
    map sig_symbol sigs = map (λ b, b +:+ "/" +:+ sl_quote_currency l) symbols ∧
    Forall (λ s, sig_strategy_name s = sl_strategy_name l ∧
                 quantity_absolute s = None) sigs ∧
    sl_quote_currency l' = sl_quote_currency l ∧
    sl_strategy_name l' = sl_strategy_name l ∧
    target_symbols l' = target_symbols l.
Proof.
  induction symbols as [| b rest IH]; intros l l' inp pf sigs; cbn [sl_loop].
  - intros [= <- <-]. by repeat split.
  - destruct (sl_signal_for l inp pf b) as [s l1] eqn:E1.
    destruct (sl_loop l1 inp pf rest) as [ss l2] eqn:E2.
    intros [= <- <-].
    apply sl_signal_for_shape in E1 as (Hs & Hn & Ha & Hq & Hn1 & Ht).
    apply IH in E2 as (Hss & Hf & Hq2 & Hn2 & Ht2).
    rewrite Hq in Hss, Hq2. rewrite Hn1 in Hf, Hn2. rewrite Ht in Ht2.
    cbn [map]. rewrite Hs, Hss. split; [done |].
    split; [by constructor |]. done.
Qed.

(** X17.  With a sentiment analyzer in the context, [generate_signals] of
    the sentiment strategy returns exactly one signal per target symbol,
    in the order of [target_symbols], each for the pair symbol/quote
    currency and under the strategy's name, and none of them carries an
    absolute quantity; without an analyzer it returns no signal and leaves
    the strategy as it was. *)
Theorem sentiment_one_signal_per_symbol (l l' : SentimentLLMStrategy)
  (inp : SentimentInputs) (pf : AgentPortfolio) (sigs : list TradingSignal) :
  sl_generate_signals l inp pf = (sigs, l') →
  if has_sentiment_analyzer inp then
    map sig_symbol sigs
    = map (λ b, b +:+ "/" +:+ sl_quote_currency l) (target_symbols l) ∧
    Forall (λ s, sig_strategy_name s = sl_strategy_name l ∧
                 quantity_absolute s = None) sigs ∧
    target_symbols l' = target_symbols l
  else sigs = [] ∧ l' = l.
Proof.
  unfold sl_generate_signals.
  destruct (has_sentiment_analyzer inp); cbn [negb].
  - intros H. apply sl_loop_shape in H as (? & ? & _ & _ & ?). done.
  - by intros [= <- <-].
Qed.

Lemma sentiment_one_signal_per_symbol_witness :
  ∃ sigs l',
    sl_generate_signals sentiment_strategy good_news (portfolio scenario_adapter)
    = (sigs, l') ∧
    map sig_symbol sigs = ["BTC/USDT"; "ETH/USDT"].
Proof.
  eexists _, _. split; [vm_compute; reflexivity |].
  exact (proj1 (sentiment_one_signal_per_symbol sentiment_strategy _ good_news
                  (portfolio scenario_adapter) _ eq_refl)).
Defined.

(** ** The crossover strategy *)

(** X18.  [generate_signals] of the crossover strategy returns at most
    one signal, always for the strategy's own symbol and under its name.
    It emits BUY only when the strategy was flat and the quote balance is
    positive, and SELL only when it was in a position and the base holding
    is positive; without data it emits nothing and keeps its state. *)
Theorem crossover_signal_shape (m m' : MovingAverageCrossoverStrategy)
  (data : option (list SmaRow)) (pf : AgentPortfolio)
  (sigs : list TradingSignal) :
  mac_generate_signals m data pf = (sigs, m') →
  (List.length sigs <= 1)%nat ∧
  (data = None ∨ data = Some [] → sigs = [] ∧ m' = m) ∧
  ∀ s, s ∈ sigs →
    sig_symbol s = mac_symbol m ∧
    sig_strategy_name s = mac_strategy_name m ∧
    (sig_action s = BUY →
     position_active m = false ∧
     0 < get0 (cash_balance pf) (last_part (split slash (mac_symbol m)))) ∧
    (sig_action s = SELL →
     position_active m = true ∧
     0 < get0 (asset_holdings pf) (first_part (split slash (mac_symbol m)))).
Proof.
  unfold mac_generate_signals. intros H.
  destruct data as [rows |]; [| inversion H; subst; cbn; split; [lia |];
                                 split; [done | intros s Hs; by apply elem_of_nil in Hs]].
  destruct (rev rows) as [| latest older] eqn:Hrev.
  { inversion H; subst; cbn; split; [lia |].
    split; [done | intros s Hs; by apply elem_of_nil in Hs]. }
  assert (Hne : ¬ (Some rows = None ∨ Some rows = Some [])).
  { intros [Hd | Hd]; [discriminate |]. injection Hd as ->. discriminate Hrev. }
  repeat case_branch H; inversion H; subst; cbn [List.length];
    (split; [lia |]); (split; [tauto |]);
    intros s Hs;
    try (by apply elem_of_nil in Hs);
    apply list_elem_of_singleton in Hs; subst s; cbn;
    repeat split; try discriminate; try done;
    try (by apply negb_true_iff);
    by apply Qltb_true.
Qed.

Lemma crossover_signal_shape_witness :
  ∃ sigs m',
    mac_generate_signals ma_strategy (Some golden_cross) (portfolio scenario_adapter)
    = (sigs, m') ∧
    (List.length sigs <= 1)%nat.
Proof.
  eexists _, _. split; [vm_compute; reflexivity |].
  exact (proj1 (crossover_signal_shape ma_strategy _ (Some golden_cross)
                  (portfolio scenario_adapter) _ eq_refl)).
Defined.

(** ** Symbols *)

Lemma split_free (c : ascii) (s : string) :
  free_of c s = true → split c s = [s].
Proof.
  induction s as [| x rest IH]; cbn [free_of split]; [done |].
  intros H. apply andb_true_iff in H as [Hx Hrest].
  apply negb_true_iff in Hx. rewrite Hx, (IH Hrest). reflexivity.
Qed.

Lemma split_join (c : ascii) (b q : string) :
  free_of c b = true →
  split c (b +:+ String c q) = b :: split c q.
Proof.
  induction b as [| x rest IH]; simpl.
  - intros _. by rewrite Ascii.eqb_refl.
  - intros H. apply andb_true_iff in H as [Hx Hrest].
    apply negb_true_iff in Hx. rewrite Hx, (IH Hrest). reflexivity.
Qed.

(** X19.  A symbol written base/quote with no further slash unpacks into
    exactly that base and that quote, both for the adapter and the agent
    ([split('/')] into two names) and for the crossover strategy (first
    and last part). *)
Theorem symbol_unpacks (b q : string) :
  free_of slash b = true →
  free_of slash q = true →
  unpack2 (split slash (b +:+ "/" +:+ q)) = Some (b, q) ∧
  first_part (split slash (b +:+ "/" +:+ q)) = b ∧
  last_part (split slash (b +:+ "/" +:+ q)) = q.
Proof.
  intros Hb Hq.
  change ("/" +:+ q) with (String slash q).
  rewrite (split_join slash b q Hb), (split_free slash q Hq). done.
Qed.

Lemma symbol_unpacks_witness :
  unpack2 (split slash ("BTC" +:+ "/" +:+ "USDT")) = Some ("BTC", "USDT") ∧
  first_part (split slash ("BTC" +:+ "/" +:+ "USDT")) = "BTC" ∧
  last_part (split slash ("BTC" +:+ "/" +:+ "USDT")) = "USDT".
Proof. apply (symbol_unpacks "BTC" "USDT"); reflexivity. Defined.

(** ** Processing signals *)

Lemma process_loop_hold {A : Type} `{BaseExchangeAdapter A}
  (signals : list (TradingSignal * Draw)) (agent : TradingAgent A) :
  Forall (λ sd, sig_action (fst sd) = HOLD) signals →
  process_loop agent signals = (Returned (map (λ _, Held) signals), agent).
Proof.
  induction signals as [| [signal d] rest IH]; intros Hall; cbn [process_loop map].
  - reflexivity.
  - apply Forall_cons in Hall as [Hh Hrest]. cbn [fst] in Hh.
    unfold process_signal. rewrite Hh, (IH Hrest). reflexivity.
Qed.

(** X20.  HOLD signals never reach the exchange: a list made of HOLD
    signals only leaves the agent, its adapter and its strategies exactly
    as they were, and every signal is reported as held. *)
Theorem hold_signals_never_reach_adapter {A : Type} `{BaseExchangeAdapter A}
  (agent : TradingAgent A) (signals : list (TradingSignal * Draw)) :
  Forall (λ sd, sig_action (fst sd) = HOLD) signals →
  snd (_process_signals agent signals) = agent ∧
  ∃ results,
    fst (_process_signals agent signals) = Returned results ∧
    Forall (λ r, r = Held) results.
Proof.
  intros Hall. unfold _process_signals.
  destruct signals as [| sd rest]; [split; [done | by exists []] |].
  destruct (exchange_adapter agent); [| split; [done | by exists []]].
  rewrite (process_loop_hold _ _ Hall). split; [done |].
  eexists. split; [reflexivity |].
  apply Forall_fmap. by apply Forall_true.
Qed.

Lemma hold_signals_never_reach_adapter_witness :
  snd (_process_signals (agent_with scenario_adapter [])
         [(mkTradingSignal "BTC/USDT" HOLD None None None None "ma_cross", draw_mid)])
  = agent_with scenario_adapter [] ∧
  ∃ results,
    fst (_process_signals (agent_with scenario_adapter [])
           [(mkTradingSignal "BTC/USDT" HOLD None None None None "ma_cross", draw_mid)])
    = Returned results ∧
    Forall (λ r, r = Held) results.
Proof.
  apply (hold_signals_never_reach_adapter (agent_with scenario_adapter [])).
  repeat constructor.
Defined.

Lemma place_sync (agent : TradingAgent MockExchangeAdapter)
  (a : MockExchangeAdapter) (signal : TradingSignal) (qty : Q)
  (tp : PyPrice) (d : Draw) :
  exchange_adapter agent = Some a →
  agent_portfolio agent = portfolio a →
  in_sync (snd (place agent a signal qty tp d)).
Proof.
  intros Ha Hp. unfold place.
  destruct (Qle_bool _ _); [by exists a |].
  cbn [adapter_create_order adapter_get_account_balance
         MockExchangeAdapter_adapter].
  destruct (create_order a _ d) as [[o | e] a1] eqn:Hc.
  - exists a1. by split.
  - apply create_order_raised in Hc as [-> _]. exists a. by split.
Qed.

Lemma process_signal_sync (agent : TradingAgent MockExchangeAdapter)
  (signal : TradingSignal) (d : Draw) :
  in_sync agent → in_sync (snd (process_signal agent signal d)).
Proof.
  intros Hsync. pose proof Hsync as (a & Ha & Hp). unfold process_signal.
  destruct (sig_action signal);
    [| | exact Hsync];
    (destruct (unpack2 _) as [[b q] |]; [| exact Hsync]);
    rewrite Ha;
    cbn [adapter_get_account_balance MockExchangeAdapter_adapter];
    set (agent1 := set_adapter_portfolio agent a (get_account_balance a));
    assert (Hs1 : in_sync agent1) by (by exists a).
  - destruct (buy_quantity _ _ _ _) as [r | [[qty tp] | e]]; [exact Hs1 | | exact Hs1].
    pose proof (place_sync agent1 a signal qty tp d eq_refl eq_refl) as Hpl.
    by destruct (place agent1 a signal qty tp d).
  - destruct (sell_quantity _ _) as [r | qty]; [exact Hs1 |].
    pose proof (place_sync agent1 a signal qty (of_optional (sig_price signal)) d
                  eq_refl eq_refl) as Hpl.
    by destruct (place agent1 a signal qty _ d).
Qed.

Lemma process_loop_sync (signals : list (TradingSignal * Draw))
  (agent : TradingAgent MockExchangeAdapter) :
  in_sync agent → in_sync (snd (process_loop agent signals)).
Proof.
  revert agent. induction signals as [| [signal d] rest IH]; intros agent Hs;
    cbn [process_loop]; [exact Hs |].
  pose proof (process_signal_sync agent signal d Hs) as H1.
  destruct (process_signal agent signal d) as [[r | e] agent1]; [| exact H1].
  pose proof (IH agent1 H1) as H2.
  by destruct (process_loop agent1 rest) as [[rs | e] agent2].
Qed.

(** X21.  With the mock adapter, the agent's portfolio view never drifts
    from the ledger: if it equals the adapter's portfolio before
    [_process_signals], it equals the adapter's portfolio afterwards,
    whether the signals were filled, rejected, skipped, failed, or the
    loop was left by an exception. *)
Theorem process_signals_keeps_view_in_sync
  (agent : TradingAgent MockExchangeAdapter)
  (signals : list (TradingSignal * Draw)) :
  in_sync agent → in_sync (snd (_process_signals agent signals)).
Proof.
  intros Hs. unfold _process_signals.
  destruct signals as [| sd rest]; [exact Hs |].
  destruct (exchange_adapter agent); [| exact Hs].
  by apply process_loop_sync.
Qed.

Lemma process_signals_keeps_view_in_sync_witness :
  in_sync
    (snd (_process_signals (agent_with scenario_adapter [])
            [(oversized_buy, draw_mid); (absolute_buy, draw_mid);
             (percentage_buy, draw_mid)])).
Proof.
  apply (process_signals_keeps_view_in_sync (agent_with scenario_adapter [])).
  exists scenario_adapter. split; reflexivity.
Defined.

Lemma settlement_echo (self self' : MockExchangeAdapter) (req : OrderRequest)
  (b q : string) (ep sp : Q) (d : Draw) (o : ExecutedOrder) :
  settlement self req b q ep sp d = (Returned o, self') →
  eo_symbol o = symbol req ∧ eo_action o = action req ∧
  eo_order_type o = order_type req ∧ eo_quantity o = quantity req.
Proof.
  unfold settlement. intros H.
  destruct (action req) eqn:Ha; [destruct (Qltb _ _) | destruct (Qltb _ _) |];
    inversion H; subst; cbn; by rewrite Ha.
Qed.

Lemma create_order_echo (self self' : MockExchangeAdapter) (req : OrderRequest)
  (d : Draw) (o : ExecutedOrder) :
  create_order self req d = (Returned o, self') →
  eo_symbol o = symbol req ∧ eo_action o = action req ∧
  eo_order_type o = order_type req ∧ eo_quantity o = quantity req.
Proof.
  unfold create_order. intros H.
  destruct (Qltb _ _); [by inversion H |].
  destruct (unpack2 _) as [[b q] |]; [| discriminate H].
  destruct (order_type req) eqn:Hty.
  { rewrite <- Hty. by apply settlement_echo in H. }
  destruct (price req) as [limit |]; [| discriminate H].
  destruct (_ && _); [inversion H; subst; cbn; by rewrite Hty |].
  destruct (_ && _); [inversion H; subst; cbn; by rewrite Hty |].
  rewrite <- Hty. by apply settlement_echo in H.
Qed.

Lemma place_placed (agent agent' : TradingAgent MockExchangeAdapter)
  (a : MockExchangeAdapter) (signal : TradingSignal) (qty : Q)
  (tp : PyPrice) (d : Draw) (o : ExecutedOrder) :
  place agent a signal qty tp d = (Placed o, agent') →
  eo_symbol o = sig_symbol signal ∧
  eo_action o = sig_action signal ∧
  eo_order_type o = match sig_price signal with Some _ => LIMIT | None => MARKET end ∧
  eo_quantity o = qty ∧
  0.000000001 < qty.
Proof.
  unfold place. destruct (Qle_bool qty 0.000000001) eqn:Hq; [discriminate |].
  assert (Hlt : 0.000000001 < qty).
  { destruct (Qlt_le_dec 0.000000001 qty) as [Hl | Hl]; [exact Hl |].
    apply Qle_bool_iff in Hl. congruence. }
  cbn [adapter_create_order adapter_get_account_balance
         MockExchangeAdapter_adapter].
  destruct (create_order a _ d) as [[o' | e] a1] eqn:Hc; [| discriminate].
  intros [= <- <-]. apply create_order_echo in Hc as (Hs & Ha & Ht & Hqty).
  cbn [symbol action order_type quantity] in *.
  by destruct (sig_price signal).
Qed.

Lemma buy_quantity_skips {A : Type} `{BaseExchangeAdapter A}
  (agent : TradingAgent A) (a : A) (signal : TradingSignal) (balance : Q)
  (r : SignalResult) (o : ExecutedOrder) :
  buy_quantity agent a signal balance = inl r → r ≠ Placed o.
Proof.
  unfold buy_quantity. intros Hq.
  repeat case_branch Hq; inversion Hq; subst; discriminate.
Qed.

Lemma sell_quantity_skips (signal : TradingSignal) (balance : Q)
  (r : SignalResult) (o : ExecutedOrder) :
  sell_quantity signal balance = inl r → r ≠ Placed o.
Proof.
  unfold sell_quantity. intros Hq.
  repeat case_branch Hq; inversion Hq; subst; discriminate.
Qed.

(** X22.  Every order the agent gets placed on the mock adapter is the
    translation of its signal: same symbol and action, LIMIT exactly when
    the signal carries a price and MARKET otherwise, a quantity above the
    dust threshold 1e-9, and that quantity is the signal's absolute
    quantity whenever one is given. *)
Theorem placed_order_translates_signal
  (agent agent' : TradingAgent MockExchangeAdapter) (signal : TradingSignal)
  (d : Draw) (o : ExecutedOrder) :
  process_signal agent signal d = (Returned (Placed o), agent') →
  eo_symbol o = sig_symbol signal ∧
  eo_action o = sig_action signal ∧
  eo_order_type o = match sig_price signal with Some _ => LIMIT | None => MARKET end ∧
  0.000000001 < eo_quantity o ∧
  (truthy_float (quantity_absolute signal) = true →
   Some (eo_quantity o) = quantity_absolute signal).
Proof.
  unfold process_signal. intros H.
  destruct (sig_action signal) eqn:Hact; [| | discriminate H];
    (destruct (unpack2 _) as [[b q] |]; [| discriminate H]);
    (destruct (exchange_adapter agent) as [a |]; [| discriminate H]);
    cbn [adapter_get_account_balance MockExchangeAdapter_adapter] in H.
  - destruct (buy_quantity _ _ _ _) as [r | [[qty tp] | e]] eqn:Hq;
      [ injection H as -> _; by apply (buy_quantity_skips _ _ _ _ _ o) in Hq
      | | discriminate H].
    destruct (place _ a signal qty tp d) as [r agent2] eqn:Hpl.
    injection H as -> ->.
    apply place_placed in Hpl as (Hs & Ha & Ht & Hqty & Hdust).
    rewrite Hqty. repeat split; try done; [congruence |].
    intros Habs. revert Hq. unfold buy_quantity. rewrite Habs.
    intros [= <- _]. destruct (quantity_absolute signal); [done | discriminate].
  - destruct (sell_quantity _ _) as [r | qty] eqn:Hq;
      [injection H as -> _; by apply (sell_quantity_skips _ _ _ o) in Hq |].
    destruct (place _ a signal qty _ d) as [r agent2] eqn:Hpl.
    injection H as -> ->.
    apply place_placed in Hpl as (Hs & Ha & Ht & Hqty & Hdust).
    rewrite Hqty. repeat split; try done; [congruence |].
    intros Habs. revert Hq. unfold sell_quantity. rewrite Habs.
    intros [= <-]. destruct (quantity_absolute signal); [done | discriminate].
Qed.

Lemma placed_order_translates_signal_witness :
  ∃ o agent',
    process_signal (agent_with scenario_adapter []) absolute_buy draw_mid
    = (Returned (Placed o), agent') ∧
    eo_symbol o = "BTC/USDT" ∧
    eo_action o = BUY ∧
    eo_order_type o = MARKET ∧
    0.000000001 < eo_quantity o ∧
    (truthy_float (Some 0.1) = true → Some (eo_quantity o) = Some 0.1).
Proof.
  eexists _, _. split; [vm_compute; reflexivity |].
  exact (placed_order_translates_signal (agent_with scenario_adapter []) _
           absolute_buy draw_mid _ eq_refl).
Defined.

(** ** Notifying strategies *)

Lemma on_order_update_name (s : Strategy) (o : ExecutedOrder) :
  strategy_name_of (on_order_update s o) = strategy_name_of s.
Proof.
  destruct s as [m | l]; cbn [on_order_update strategy_name_of].
  - unfold mac_on_order_update.
    destruct (_ && _); [| done]. by destruct (eo_action o).
  - unfold sl_on_order_update.
    destruct (_ && _); [| done]. by destruct (eo_action o).
Qed.

(** X23.  Notifying the strategies of an order keeps their number, order
    and names; it hands the order to the first strategy that bears the
    signal's name and to no other (a second strategy of the same name is
    not told), and when no strategy bears the name nothing changes. *)
Theorem notify_first_match_only (ss : list Strategy) (name : string)
  (o : ExecutedOrder) :
  map strategy_name_of (notify ss name o) = map strategy_name_of ss ∧
  (name ∉ map strategy_name_of ss → notify ss name o = ss) ∧
  (∀ pre s post,
     ss = pre ++ s :: post →
     name ∉ map strategy_name_of pre →
     strategy_name_of s = name →
     notify ss name o = pre ++ on_order_update s o :: post).
Proof.
  split; [| split].
  - induction ss as [| s rest IH]; cbn [notify map]; [done |].
    destruct (String.eqb (strategy_name_of s) name); cbn [map].
    + by rewrite on_order_update_name.
    + by rewrite IH.
  - induction ss as [| s rest IH]; cbn [notify map]; [done |].
    intros Hn. apply not_elem_of_cons in Hn as [Hne Hn].
    destruct (String.eqb (strategy_name_of s) name) eqn:E.
    + apply String.eqb_eq in E. congruence.
    + by rewrite (IH Hn).
  - intros pre. revert ss.
    induction pre as [| x pre IH]; intros ss s post -> Hn Hs; cbn [app notify].
    + by rewrite Hs, String.eqb_refl.
    + cbn [map] in Hn. apply not_elem_of_cons in Hn as [Hne Hn].
      destruct (String.eqb (strategy_name_of x) name) eqn:E.
      * apply String.eqb_eq in E. congruence.
      * by rewrite (IH _ s post eq_refl Hn Hs).
Qed.

(** ** Starting and stopping *)



(** ** Percentage sizing *)



(** ** Shutdown and initialization *)

(** X26.  [shutdown] empties the open-orders index without cancelling
    anything: the history and the portfolio are untouched, so an order
    that was resting (and has no entry in the history) can no longer be
    found by [get_order_status], and cancelling it returns False. *)
Theorem shutdown_forgets_resting_orders (self : MockExchangeAdapter)
  (oid : string) (o : ExecutedOrder) :
  open_orders self !! oid = Some o →
  List.find (λ trade, String.eqb (order_id trade) oid) (trade_history self) = None →
  get_order_status self oid = Some o ∧
  get_order_status (shutdown self) oid = None ∧
  cancel_order (shutdown self) oid = (false, shutdown self) ∧
  get_open_orders (shutdown self) None = [] ∧
  trade_history (shutdown self) = trade_history self ∧
  portfolio (shutdown self) = portfolio self.
Proof.
  intros Ho Hh. unfold get_order_status, cancel_order, get_open_orders, shutdown.
  cbn [open_orders set_open_orders trade_history portfolio truthy_str].
  rewrite Ho, lookup_empty, Hh, map_to_list_empty. done.
Qed.

Lemma shutdown_forgets_resting_orders_witness :
  let o := pending_order (limit_order "BTC/USDT" BUY 0.1 40000) 40000 draw_mid in
  get_order_status resting_adapter (order_id o) = Some o ∧
  get_order_status (shutdown resting_adapter) (order_id o) = None ∧
  cancel_order (shutdown resting_adapter) (order_id o)
  = (false, shutdown resting_adapter) ∧
  get_open_orders (shutdown resting_adapter) None = [] ∧
  trade_history (shutdown resting_adapter) = trade_history resting_adapter ∧
  portfolio (shutdown resting_adapter) = portfolio resting_adapter.
Proof.
  cbv zeta.
  apply (shutdown_forgets_resting_orders resting_adapter).
  - vm_compute. reflexivity.
  - reflexivity.
Defined.

Lemma strategy_initialize_spec (s : Strategy) :
  is_initialized (strategy_initialize s) = true ∧
  strategy_name_of (strategy_initialize s) = strategy_name_of s.
Proof. by destruct s. Qed.

(** X27.  With the mock adapter [initialize_components] reports no
    failure; afterwards the agent's portfolio view is the adapter's
    ledger, and every strategy is marked initialized and keeps its name
    and place. *)
Theorem initialize_components_result
  (agent : TradingAgent MockExchangeAdapter) (a : MockExchangeAdapter) :
  exchange_adapter agent = Some a →
  let agent' := snd (initialize_components agent) in
  fst (initialize_components agent) = None ∧
  in_sync agent' ∧
  exchange_adapter agent' = Some a ∧
  Forall (λ s, is_initialized s = true) (strategies agent') ∧
  map strategy_name_of (strategies agent') = map strategy_name_of (strategies agent).
Proof.
  intros Ha. unfold initialize_components. rewrite Ha.
  cbn [adapter_initialize adapter_get_account_balance MockExchangeAdapter_adapter
         fst snd].
  split; [done |]. split; [by exists a |]. split; [done |].
  cbn [strategies set_strategies set_adapter_portfolio]. split.
  - apply Forall_fmap, Forall_true. intros s. apply strategy_initialize_spec.
  - rewrite <- list_fmap_compose. apply list_fmap_ext.
    intros i s _. apply strategy_initialize_spec.
Qed.

Lemma initialize_components_result_witness :
  let agent := agent_with scenario_adapter [MovingAverageCrossover ma_strategy] in
  fst (initialize_components agent) = None ∧
  in_sync (snd (initialize_components agent)) ∧
  exchange_adapter (snd (initialize_components agent)) = Some scenario_adapter ∧
  Forall (λ s, is_initialized s = true) (strategies (snd (initialize_components agent))) ∧
  map strategy_name_of (strategies (snd (initialize_components agent)))
  = map strategy_name_of (strategies agent).
Proof.
  cbv zeta.
  apply (initialize_components_result
           (agent_with scenario_adapter [MovingAverageCrossover ma_strategy])
           scenario_adapter).
  reflexivity.
Defined.
